(** * Peer-to-peer lending backend (backend/server.js)

    A shallow embedding of the Express/Mongoose server: the four Mongoose
    collections become lists of records held in a [Store], every route
    handler becomes a function in a small handler monad that threads the
    store, lets a handler reply early ([return res.status(..).json(..)])
    and lets an awaited call throw into the handler's [catch].

    Modelling choices, all visible in the definitions below:
    - an ObjectId is a [nat]; the id generator is the [nextId] counter of
      the store;
    - a JavaScript number the routes compute with, the amount of a
      repayment and the running total [$inc] adds it to, is an IEEE 754
      binary64 [float], added as JavaScript and the store add doubles; a
      number the routes only copy or count (the terms of an offer, a salary,
      a date, a score) is a [Z];
    - strings are [string]; a request field that may be absent is an
      [option]; where a route hands a field of the body to a query or a
      library unchecked, the field is an inductive type of the values that
      make the route behave differently (a string, an operator object, a
      value the cast refuses);
    - the [:id] of the DELETE route, which the route compares as a string
      before the query casts it, is a [PathId]; the other routes only cast
      their path segment, and take the ObjectId it spells;
    - the text of an error thrown by Mongoose or bcrypt is cut to its
      first words where the full text quotes the offending value;
    - bcrypt and jsonwebtoken are external: their functions are the fields
      of [Externals]. *)

From Stdlib Require Import String List ZArith Lia Bool Arith.
From Stdlib Require Import Floats.PrimFloat.
Import ListNotations.

Local Open Scope string_scope.
Local Open Scope Z_scope.

Definition ObjectId := nat.

(** ** Schemas *)

Module User.
Record t := mk {
  _id : ObjectId;
  name : string;
  email : string;
  password : string;
  role : string
}.

Definition setRole (r : string) (u : t) : t :=
  mk (_id u) (name u) (email u) (password u) r.
End User.

Module LoanOffer.
Record t := mk {
  _id : ObjectId;
  lenderId : ObjectId;
  amount : Z;
  interestRate : Z;
  maxTermMonths : Z;
  isActive : bool
}.

Definition setIsActive (b : bool) (o : t) : t :=
  mk (_id o) (lenderId o) (amount o) (interestRate o) (maxTermMonths o) b.
End LoanOffer.

Module LoanApplication.
Record t := mk {
  _id : ObjectId;
  borrowerId : ObjectId;
  loanOfferId : ObjectId;
  nationalId : string;
  monthlySalary : Z;
  reason : string;
  status : string
}.

Definition setStatus (st : string) (a : t) : t :=
  mk (_id a) (borrowerId a) (loanOfferId a) (nationalId a)
     (monthlySalary a) (reason a) st.
End LoanApplication.

(** One element of [LoanPayment.payments]. *)
Module PaymentEntry.
Record t := mk {
  date : Z;
  amount : float
}.
End PaymentEntry.

Module LoanPayment.
Record t := mk {
  _id : ObjectId;
  applicationId : ObjectId;
  amountPaid : float;
  payments : list PaymentEntry.t
}.

(** [{ $inc: { amountPaid: amount }, $push: { payments: { amount } } }]:
    [$inc] adds the two doubles; the pushed sub-document takes its [date]
    from the schema default [Date.now]. *)
Definition incAndPush (now : Z) (amount : float) (p : t) : t :=
  mk (_id p) (applicationId p) (PrimFloat.add (amountPaid p) amount)
     (payments p ++ [PaymentEntry.mk now amount]).
End LoanPayment.

(** ** The document store *)

Record Store := mkStore {
  users : list User.t;
  loanOffers : list LoanOffer.t;
  loanApplications : list LoanApplication.t;
  loanPayments : list LoanPayment.t;
  nextId : ObjectId
}.

Definition emptyStore : Store := mkStore [] [] [] [] 0%nat.

Definition setUsers (us : list User.t) (s : Store) : Store :=
  mkStore us (loanOffers s) (loanApplications s) (loanPayments s) (nextId s).
Definition setLoanOffers (os : list LoanOffer.t) (s : Store) : Store :=
  mkStore (users s) os (loanApplications s) (loanPayments s) (nextId s).
Definition setLoanApplications (l : list LoanApplication.t) (s : Store) : Store :=
  mkStore (users s) (loanOffers s) l (loanPayments s) (nextId s).
Definition setLoanPayments (ps : list LoanPayment.t) (s : Store) : Store :=
  mkStore (users s) (loanOffers s) (loanApplications s) ps (nextId s).
Definition bumpNextId (s : Store) : Store :=
  mkStore (users s) (loanOffers s) (loanApplications s) (loanPayments s)
          (S (nextId s)).

(** ** Mongoose queries on one collection *)

Section Collection.
Context {A : Type}.

(** [Model.findOne(filter)]: the first document that matches. *)
Definition findOne (filter : A -> bool) (docs : list A) : option A :=
  find filter docs.

(** The write half of [findOneAndUpdate] / [findByIdAndUpdate]: the first
    matching document is replaced, nothing is inserted when none matches
    (no [upsert] option is ever passed). *)
Fixpoint updateOne (filter : A -> bool) (upd : A -> A) (docs : list A) : list A :=
  match docs with
  | [] => []
  | d :: rest =>
      if filter d then upd d :: rest else d :: updateOne filter upd rest
  end.

(** [findOneAndUpdate(filter, upd, { new: true })] answers the document
    after the update, or [null]. *)
Definition findOneAndUpdate (filter : A -> bool) (upd : A -> A) (docs : list A)
  : option A * list A :=
  (option_map upd (findOne filter docs), updateOne filter upd docs).

(** [findByIdAndDelete]: the first matching document is removed. *)
Fixpoint deleteOne (filter : A -> bool) (docs : list A) : list A :=
  match docs with
  | [] => []
  | d :: rest => if filter d then rest else d :: deleteOne filter rest
  end.
End Collection.

(** ** Credit scoring *)

(** The argument of [calculateCreditScore]: an object with the two arrays
    [applications] and [payments]. *)
Record ScoreInput := mkScoreInput {
  si_applications : list LoanApplication.t;
  si_payments : list LoanPayment.t
}.

(** [borrower.payments.reduce((sum, p) => sum + (p.payments?.length || 0), 0)] *)
Definition totalPayments (ps : list LoanPayment.t) : Z :=
  fold_left (fun sum p => sum + Z.of_nat (length (LoanPayment.payments p))) ps 0.

(** [borrower.applications.filter(a => a.status === 'approved').length] *)
Definition approvedLoans (apps : list LoanApplication.t) : Z :=
  Z.of_nat (length (filter (fun a => LoanApplication.status a =? "approved")%string apps)).

(** server.js, lines 304-315. *)
Definition calculateCreditScore (borrower : ScoreInput) : Z :=
  let score := 700 in
  let score :=
    if (0 <? length (si_payments borrower))%nat
    then score + totalPayments (si_payments borrower) * 5
    else score in
  let score :=
    if (0 <? length (si_applications borrower))%nat
    then score + approvedLoans (si_applications borrower) * 20
    else score in
  Z.min (Z.max score 300) 850.

(** An element of [borrower.payments] as the borrower score reads it: the
    only property it looks at is [status], which may be missing. *)
Module ScoredPayment.
Record t := mk {
  date : Z;
  amount : Z;
  status : option string
}.
End ScoredPayment.

(** [p.status === 'ontime'] and [p.status === 'late']: an absent property is
    [undefined] and equals neither. *)
Definition statusIs (s : string) (p : ScoredPayment.t) : bool :=
  match ScoredPayment.status p with
  | Some st => (st =? s)%string
  | None => false
  end.

(** server.js, lines 439-454; the argument is the value of
    [borrower.payments], [None] when that property is undefined. *)
Definition scoreForBorrower (payments : option (list ScoredPayment.t)) : Z :=
  let score := 650 in
  let score :=
    match payments with
    | Some ps => score + Z.of_nat (length (filter (statusIs "ontime") ps)) * 5
    | None => score
    end in
  let score :=
    match payments with
    | Some ps => score - Z.of_nat (length (filter (statusIs "late") ps)) * 10
    | None => score
    end in
  Z.max 300 (Z.min score 850).

(** ** HTTP responses *)

(** What a [find] with the projection [{ password: 0 }] or a
    [.select('-password')] hands back: the document without its
    [password] path.  A projection that keeps the path would carry
    [Some hash]. *)
Module UserView.
Record t := mk {
  _id : ObjectId;
  name : string;
  email : string;
  password : option string;
  role : string
}.
End UserView.

Definition excludePassword (u : User.t) : UserView.t :=
  UserView.mk (User._id u) (User.name u) (User.email u) None (User.role u).

(** An application after [.populate('loanOfferId')]: the reference is
    replaced by the offer, or by [null] when no offer has that id. *)
Record PopulatedApplication := mkPopulatedApplication {
  pa_doc : LoanApplication.t;
  pa_loanOfferId : option LoanOffer.t
}.

(** A payment record after [.populate('applicationId')]. *)
Record PopulatedPayment := mkPopulatedPayment {
  pp_doc : LoanPayment.t;
  pp_applicationId : option LoanApplication.t
}.

(** One element of the array answered by GET /api/admin/borrowers. *)
Record BorrowerData := mkBorrowerData {
  bd_borrower : UserView.t;
  bd_applications : list PopulatedApplication;
  bd_payments : list PopulatedPayment;
  bd_creditScore : Z
}.

Inductive Body :=
| ErrorBody (error : string)
| MessageBody (message : string)
| LoginBody (message token : string) (name email role : string)
| OfferBody (offer : LoanOffer.t)
| ApplicationBody (application : option LoanApplication.t)
| PaymentBody (payment : option LoanPayment.t)
| UserBody (user : option UserView.t)
| UsersBody (users : list UserView.t)
| BorrowersBody (data : list BorrowerData).

Record Response := mkResponse {
  statusCode : nat;
  body : Body
}.

(** The error taxonomy of the service, read off the status code. *)
Inductive ErrorKind := Validation | Unauthorized | Forbidden | NotFound | Internal.

Definition errorKind (r : Response) : option ErrorKind :=
  match statusCode r with
  | 400%nat => Some Validation
  | 401%nat => Some Unauthorized
  | 403%nat => Some Forbidden
  | 404%nat => Some NotFound
  | 500%nat => Some Internal
  | _ => None
  end.

(** ** The handler monad *)

Inductive Outcome (A : Type) :=
| Value (a : A)
| Replied (r : Response)
| Thrown (message : string).
Arguments Value {A} a.
Arguments Replied {A} r.
Arguments Thrown {A} message.

Definition Handler (A : Type) : Type := Store -> Outcome A * Store.

Definition ret {A} (a : A) : Handler A := fun s => (Value a, s).

Definition bind {A B} (m : Handler A) (k : A -> Handler B) : Handler B :=
  fun s =>
    match m s with
    | (Value a, s') => k a s'
    | (Replied r, s') => (Replied r, s')
    | (Thrown e, s') => (Thrown e, s')
    end.

Notation "x <- m ;; k" := (bind m (fun x => k))
  (at level 61, m at next level, right associativity).

(** [res.status(code).json(body)], after which the handler is left. *)
Definition reply {A} (code : nat) (b : Body) : Handler A :=
  fun s => (Replied (mkResponse code b), s).

Definition throw {A} (message : string) : Handler A :=
  fun s => (Thrown message, s).

Definition getStore : Handler Store := fun s => (Value s, s).

Definition modify (f : Store -> Store) : Handler unit := fun s => (Value tt, f s).

(** A route: what it answers and the store it leaves. *)
Definition Route : Type := Store -> Response * Store.

(** [try { ... } catch (err) { res.status(500).json({ error: prefix + err.message }) }].
    Writes made before the throw stay: nothing runs in a transaction. *)
Definition tryCatch (prefix : string) (h : Handler Empty_set) : Route :=
  fun s =>
    match h s with
    | (Value e, _) => match e with end
    | (Replied r, s') => (r, s')
    | (Thrown e, s') => (mkResponse 500 (ErrorBody (prefix ++ e)), s')
    end.

(** ** Authentication middleware *)

(** The payload signed at login: [{ id, email, role }]. *)
Record AuthUser := mkAuthUser {
  au_id : ObjectId;
  au_email : string;
  au_role : string
}.

(** What the [Authorization] header amounts to: no token, a token that
    [jwt.verify] refuses, or a token with its decoded payload. *)
Inductive Credentials :=
| NoToken
| InvalidToken
| Token (decoded : AuthUser).

Definition authenticate (c : Credentials) (next : AuthUser -> Route) : Route :=
  match c with
  | NoToken => fun s => (mkResponse 401 (ErrorBody "No token provided"), s)
  | InvalidToken => fun s => (mkResponse 401 (ErrorBody "Invalid token"), s)
  | Token decoded => next decoded
  end.

(** [if (req.user.role !== r) return res.status(403).json({ error: 'Forbidden' })] *)
Definition requireRole (r : string) (user : AuthUser) (next : Route) : Route :=
  if negb (au_role user =? r)%string
  then fun s => (mkResponse 403 (ErrorBody "Forbidden"), s)
  else next.

(** ** External services *)

Record Externals := mkExternals {
  (** [bcrypt.hash(password, 10)] *)
  bcrypt_hash : string -> string;
  (** [bcrypt.compare(password, hash)] *)
  bcrypt_compare : string -> string -> bool;
  (** [jwt.sign({ id, email, role }, secret, { expiresIn: '1h' })] *)
  jwt_sign : AuthUser -> string
}.

(** ** Request bodies *)

Record RegisterInput := mkRegisterInput {
  ri_name : option string;
  ri_email : option string;
  ri_password : option string;
  ri_role : option string
}.

(** A value of the login body used, unchecked, as the condition of a query
    on a string path.  A JSON string asks for equality.  An operator object
    such as [{ "$ne": null }], and any other value the cast lets through
    ([null], an absent field, a number, which is compared as its decimal
    string), selects the stored strings it selects.  A value the cast
    refuses (an array, an object without operators) makes the query throw
    a CastError. *)
Inductive Condition :=
| Equals (s : string)
| Operator (selects : string -> bool)
| Uncastable.

Definition conditionHolds (c : Condition) (stored : string) : bool :=
  match c with
  | Equals s => (stored =? s)%string
  | Operator selects => selects stored
  | Uncastable => false
  end.

Definition castable (c : Condition) : bool :=
  match c with
  | Uncastable => false
  | _ => true
  end.

(** The [password] of the login body as [bcrypt.compare] takes it: a
    string, or anything else (absent, [null], a number, an object), for
    which it throws "Illegal arguments". *)
Inductive PasswordValue :=
| Password (s : string)
| NotAString.

Record LoginInput := mkLoginInput {
  li_email : Condition;
  li_password : PasswordValue;
  li_role : Condition
}.

(** A login body whose three fields are strings. *)
Definition stringLogin (email password role : string) : LoginInput :=
  mkLoginInput (Equals email) (Password password) (Equals role).

Record OfferInput := mkOfferInput {
  oi_amount : option Z;
  oi_interestRate : option Z;
  oi_maxTermMonths : option Z
}.

Record ApplicationInput := mkApplicationInput {
  ai_loanOfferId : option ObjectId;
  ai_nationalId : option string;
  ai_monthlySalary : option Z;
  ai_reason : option string
}.

(** [!v] for a field that is absent or a string. *)
Definition falsy (v : option string) : bool :=
  match v with
  | None => true
  | Some s => (s =? EmptyString)%string
  end.

Definition orEmpty (v : option string) : string :=
  match v with
  | None => EmptyString
  | Some s => s
  end.

(** ** Schema validation on save *)

Definition roleEnum : list string := ["borrower"; "lender"; "admin"].

Definition inEnum (values : list string) (v : string) : bool :=
  existsb (fun x => (x =? v)%string) values.

(** [newUser.save()]: the schema validators run ([required] refuses an
    empty string, [enum] a role outside the list), then the unique index
    on [email] is enforced by the insert. *)
Definition saveUser (name email password role : string) : Handler unit :=
  if (name =? EmptyString)%string || (email =? EmptyString)%string
     || (password =? EmptyString)%string || negb (inEnum roleEnum role)
  then throw "User validation failed"
  else
    s <- getStore ;;
    match findOne (fun u => (User.email u =? email)%string) (users s) with
    | Some _ => throw "E11000 duplicate key error"
    | None =>
        modify (fun s =>
          bumpNextId (setUsers (users s ++ [User.mk (nextId s) name email password role]) s))
    end.

(** [newOffer.save()]; [isActive] takes its default. *)
Definition saveLoanOffer (lenderId : ObjectId) (input : OfferInput) : Handler LoanOffer.t :=
  match oi_amount input, oi_interestRate input, oi_maxTermMonths input with
  | Some amount, Some interestRate, Some maxTermMonths =>
      s <- getStore ;;
      let newOffer :=
        LoanOffer.mk (nextId s) lenderId amount interestRate maxTermMonths true in
      _ <- modify (fun s => bumpNextId (setLoanOffers (loanOffers s ++ [newOffer]) s)) ;;
      ret newOffer
  | _, _, _ => throw "LoanOffer validation failed"
  end.

(** [newApp.save()]; [status] takes its default.  The offer id is stored as
    given: nothing looks the offer up. *)
Definition saveLoanApplication (borrowerId : ObjectId) (input : ApplicationInput)
  : Handler LoanApplication.t :=
  match ai_loanOfferId input, ai_monthlySalary input with
  | Some loanOfferId, Some monthlySalary =>
      if falsy (ai_nationalId input) || falsy (ai_reason input)
      then throw "LoanApplication validation failed"
      else
        s <- getStore ;;
        let newApp :=
          LoanApplication.mk (nextId s) borrowerId loanOfferId
            (orEmpty (ai_nationalId input)) monthlySalary
            (orEmpty (ai_reason input)) "pending" in
        _ <- modify (fun s =>
               bumpNextId (setLoanApplications (loanApplications s ++ [newApp]) s)) ;;
        ret newApp
  | _, _ => throw "LoanApplication validation failed"
  end.

(** [LoanPayment.create({ applicationId })]: [amountPaid] defaults to 0 and
    [payments] to the empty array. *)
Definition createLoanPayment (applicationId : ObjectId) : Handler unit :=
  modify (fun s =>
    bumpNextId
      (setLoanPayments
         (loanPayments s ++ [LoanPayment.mk (nextId s) applicationId 0 []]) s)).

(** ** Auth routes *)

Section AuthRoutes.
Context (ext : Externals).

(** POST /api/register, lines 73-94. *)
Definition register (b : RegisterInput) : Route :=
  tryCatch "Server error: " (
    if falsy (ri_name b) || falsy (ri_email b) || falsy (ri_password b)
       || falsy (ri_role b)
    then reply 400 (ErrorBody "All fields are required!")
    else
      let name := orEmpty (ri_name b) in
      let email := orEmpty (ri_email b) in
      let password := orEmpty (ri_password b) in
      let role := orEmpty (ri_role b) in
      s <- getStore ;;
      match findOne (fun u => (User.email u =? email)%string) (users s) with
      | Some existingUser => reply 400 (ErrorBody "Email already registered!")
      | None =>
          let hashedPassword := bcrypt_hash ext password in
          _ <- saveUser name email hashedPassword role ;;
          reply 201 (MessageBody "User registered successfully!")
      end).

(** The filter [{ email, role }] of the login query. *)
Definition emailAndRole (b : LoginInput) (u : User.t) : bool :=
  conditionHolds (li_email b) (User.email u)
  && conditionHolds (li_role b) (User.role u).

(** POST /api/login, lines 96-119.  Nothing checks the three values of the
    body before they reach [User.findOne] and [bcrypt.compare]; what either
    throws lands in the [catch]. *)
Definition login (b : LoginInput) : Route :=
  tryCatch "Server error: " (
    s <- getStore ;;
    user <- (if castable (li_email b) && castable (li_role b)
             then ret (findOne (emailAndRole b) (users s))
             else throw "Cast to string failed") ;;
    match user with
    | None => reply 400 (ErrorBody "Invalid email or role!")
    | Some user =>
        isPasswordValid <-
          match li_password b with
          | Password password => ret (bcrypt_compare ext password (User.password user))
          | NotAString => throw "Illegal arguments"
          end ;;
        if negb isPasswordValid
        then reply 400 (ErrorBody "Invalid password!")
        else
          let token :=
            jwt_sign ext (mkAuthUser (User._id user) (User.email user) (User.role user)) in
          reply 200 (LoginBody "Login successful!" token
                       (User.name user) (User.email user) (User.role user))
    end).
End AuthRoutes.

(** ** Lender routes *)

(** POST /api/lender/loan-offers, lines 122-138. *)
Definition createOffer (c : Credentials) (input : OfferInput) : Route :=
  authenticate c (fun user =>
    requireRole "lender" user (
      tryCatch EmptyString (
        newOffer <- saveLoanOffer (au_id user) input ;;
        reply 201 (OfferBody newOffer)))).

Definition byId {A} (_id : A -> ObjectId) (id : ObjectId) (d : A) : bool :=
  (_id d =? id)%nat.

(** [.populate('loanOfferId')] on one application. *)
Definition populateLoanOffer (s : Store) (a : LoanApplication.t) : PopulatedApplication :=
  mkPopulatedApplication a
    (findOne (byId LoanOffer._id (LoanApplication.loanOfferId a)) (loanOffers s)).

(** PATCH /api/lender/applications/:id, lines 186-212.  Reading
    [appToUpdate.loanOfferId._id] when the populated offer is [null]
    raises a TypeError, which lands in the [catch]. *)
Definition setApplicationStatus (c : Credentials) (id : ObjectId) (status : string)
  : Route :=
  authenticate c (fun user =>
    requireRole "lender" user (
      tryCatch EmptyString (
        s <- getStore ;;
        match option_map (populateLoanOffer s)
                (findOne (byId LoanApplication._id id) (loanApplications s)) with
        | None => reply 404 (ErrorBody "Application not found")
        | Some appToUpdate =>
            _ <- (if (status =? "approved")%string
                  then
                    offerId <- match pa_loanOfferId appToUpdate with
                               | Some offer => ret (LoanOffer._id offer)
                               | None =>
                                   throw "Cannot read properties of null (reading '_id')"
                               end ;;
                    _ <- modify (fun s =>
                           setLoanOffers
                             (updateOne (byId LoanOffer._id offerId)
                                (LoanOffer.setIsActive false) (loanOffers s)) s) ;;
                    s <- getStore ;;
                    match findOne (byId LoanPayment.applicationId id) (loanPayments s) with
                    | Some existingPayment => ret tt
                    | None => createLoanPayment id
                    end
                  else ret tt) ;;
            s <- getStore ;;
            let '(updatedApp, apps) :=
              findOneAndUpdate (byId LoanApplication._id id)
                (LoanApplication.setStatus status) (loanApplications s) in
            _ <- modify (setLoanApplications apps) ;;
            reply 200 (ApplicationBody updatedApp)
        end))).

(** ** Borrower routes *)

(** POST /api/borrower/applications, lines 227-244. *)
Definition createApplication (c : Credentials) (input : ApplicationInput) : Route :=
  authenticate c (fun user =>
    requireRole "borrower" user (
      tryCatch EmptyString (
        newApp <- saveLoanApplication (au_id user) input ;;
        reply 201 (ApplicationBody (Some newApp))))).

(** The [amount] of a repayment body as the update reads it.  [$inc] and
    the pushed entry cast it to the Number of the schema: a JSON number or
    a numeric string gives a double; an absent amount, [null] and every
    other value the cast refuses make [findOneAndUpdate] throw. *)
Inductive BodyNumber :=
| Number (x : float)
| NotANumber.

Coercion Number : float >-> BodyNumber.
Bind Scope float_scope with BodyNumber.

(** POST /api/borrower/payments/:applicationId, lines 282-299; [now] is the
    clock reading that fills the [date] default of the pushed entry. *)
Definition recordPayment (c : Credentials) (applicationId : ObjectId)
    (amount : BodyNumber) (now : Z) : Route :=
  authenticate c (fun user =>
    requireRole "borrower" user (
      tryCatch EmptyString (
        amount <- match amount with
                  | Number x => ret x
                  | NotANumber => throw "Cast to Number failed"
                  end ;;
        s <- getStore ;;
        let '(payment, ps) :=
          findOneAndUpdate (byId LoanPayment.applicationId applicationId)
            (LoanPayment.incAndPush now amount) (loanPayments s) in
        _ <- modify (setLoanPayments ps) ;;
        reply 200 (PaymentBody payment)))).

(** ** Admin routes *)

(** GET /api/admin/users, lines 318-326. *)
Definition listUsers (c : Credentials) : Route :=
  authenticate c (fun user =>
    requireRole "admin" user (
      tryCatch EmptyString (
        s <- getStore ;;
        let users := map excludePassword (users s) in
        reply 200 (UsersBody users)))).

(** [.populate('applicationId')] on one payment record. *)
Definition populateApplication (s : Store) (p : LoanPayment.t) : PopulatedPayment :=
  mkPopulatedPayment p
    (findOne (byId LoanApplication._id (LoanPayment.applicationId p)) (loanApplications s)).

(** GET /api/admin/borrowers, lines 329-356. *)
Definition listBorrowersWithDerivedData (c : Credentials) : Route :=
  authenticate c (fun user =>
    requireRole "admin" user (
      tryCatch EmptyString (
        s <- getStore ;;
        let borrowers :=
          map excludePassword
            (filter (fun u => (User.role u =? "borrower")%string) (users s)) in
        let borrowerIds := map UserView._id borrowers in
        let applications :=
          map (populateLoanOffer s)
            (filter (fun a =>
                       existsb (Nat.eqb (LoanApplication.borrowerId a)) borrowerIds)
               (loanApplications s)) in
        let payments := map (populateApplication s) (loanPayments s) in
        let data :=
          map (fun borrower =>
                 let borrowerApps :=
                   filter (fun a =>
                             (LoanApplication.borrowerId (pa_doc a)
                              =? UserView._id borrower)%nat) applications in
                 let borrowerPayments :=
                   filter (fun p =>
                             existsb (fun a =>
                               match pp_applicationId p with
                               | Some populated =>
                                   (LoanApplication._id (pa_doc a)
                                    =? LoanApplication._id populated)%nat
                               | None => false
                               end) borrowerApps) payments in
                 mkBorrowerData borrower borrowerApps borrowerPayments
                   (calculateCreditScore
                      (mkScoreInput (map pa_doc borrowerApps)
                                    (map pp_doc borrowerPayments))))
              borrowers in
        reply 200 (BorrowersBody data)))).

(** The [:id] segment of the path of the DELETE route.  The route reads
    it twice: as a string, compared with [req.user.id], and as an ObjectId,
    after the cast of [findByIdAndDelete].  A verified token spells an id
    as its 24 lower-case hex digits ([jwt.sign] serialised [user._id]); the
    cast also takes other spellings of the same id, upper-case digits for
    one, and refuses every string that spells no id. *)
Inductive PathId :=
| Canonical (id : ObjectId)
| OtherSpelling (id : ObjectId)
| Malformed.

(** The cast of the segment to an ObjectId. *)
Definition castPathId (raw : PathId) : option ObjectId :=
  match raw with
  | Canonical id | OtherSpelling id => Some id
  | Malformed => None
  end.

(** [req.params.id === req.user.id]: equality of the two strings. *)
Definition sameString (raw : PathId) (tokenId : ObjectId) : bool :=
  match raw with
  | Canonical id => (id =? tokenId)%nat
  | _ => false
  end.

(** DELETE /api/admin/users/:id, lines 359-370. *)
Definition deleteUser (c : Credentials) (rawId : PathId) : Route :=
  authenticate c (fun user =>
    requireRole "admin" user (
      tryCatch EmptyString (
        if sameString rawId (au_id user)
        then reply 400 (ErrorBody "Cannot delete your own account")
        else
          id <- match castPathId rawId with
                | Some id => ret id
                | None => throw "Cast to ObjectId failed"
                end ;;
          _ <- modify (fun s => setUsers (deleteOne (byId User._id id) (users s)) s) ;;
          reply 200 (MessageBody "User deleted successfully")))).

(** PATCH /api/admin/users/:id/role, lines 373-382. *)
Definition setUserRole (c : Credentials) (id : ObjectId) (role : string) : Route :=
  authenticate c (fun user =>
    requireRole "admin" user (
      tryCatch EmptyString (
        s <- getStore ;;
        let '(updated, us) :=
          findOneAndUpdate (byId User._id id) (User.setRole role) (users s) in
        _ <- modify (setUsers us) ;;
        reply 200 (UserBody (option_map excludePassword updated))))).

(** ** The service as a state machine *)

(** The requests that reach the routes above.  The routes of server.js
    left out are GET routes that only issue [find] queries. *)
Inductive Request :=
| Register (b : RegisterInput)
| Login (b : LoginInput)
| CreateOffer (c : Credentials) (input : OfferInput)
| SetApplicationStatus (c : Credentials) (id : ObjectId) (status : string)
| CreateApplication (c : Credentials) (input : ApplicationInput)
| RecordPayment (c : Credentials) (applicationId : ObjectId) (amount : BodyNumber)
    (now : Z)
| ListUsers (c : Credentials)
| ListBorrowers (c : Credentials)
| DeleteUser (c : Credentials) (id : PathId)
| SetUserRole (c : Credentials) (id : ObjectId) (role : string).

Definition handle (ext : Externals) (req : Request) : Route :=
  match req with
  | Register b => register ext b
  | Login b => login ext b
  | CreateOffer c input => createOffer c input
  | SetApplicationStatus c id status => setApplicationStatus c id status
  | CreateApplication c input => createApplication c input
  | RecordPayment c applicationId amount now => recordPayment c applicationId amount now
  | ListUsers c => listUsers c
  | ListBorrowers c => listBorrowersWithDerivedData c
  | DeleteUser c id => deleteUser c id
  | SetUserRole c id role => setUserRole c id role
  end.

(** The store after a sequence of requests served one after the other:
    each handler runs to its end before the next request is taken up.  Two
    requests whose awaited queries interleave are not a run of [serve]. *)
Definition serve (ext : Externals) (reqs : list Request) (s : Store) : Store :=
  fold_left (fun s req => snd (handle ext req s)) reqs s.

(** The stores the service can be in, starting from an empty database,
    when it serves its requests one after the other. *)
Inductive reachable (ext : Externals) : Store -> Prop :=
| reachable_empty : reachable ext emptyStore
| reachable_step req s :
    reachable ext s -> reachable ext (snd (handle ext req s)).

(** ** Vocabulary of the specification *)

Definition clamp (lo hi x : Z) : Z :=
  if x <? lo then lo else if hi <? x then hi else x.

(** The admin-view score in the words of the specification: 700, plus 5
    for every payment entry of every payment record, plus 20 for every
    approved application, clamped to [300, 850]. *)
Fixpoint specAdminPoints (apps : list LoanApplication.t) : Z :=
  match apps with
  | [] => 0
  | a :: rest =>
      (if (LoanApplication.status a =? "approved")%string then 20 else 0)
      + specAdminPoints rest
  end.

Definition specScoreForAdmin (apps : list LoanApplication.t) (ps : list LoanPayment.t) : Z :=
  clamp 300 850
    (700 + 5 * Z.of_nat (length (flat_map LoanPayment.payments ps))
     + specAdminPoints apps).

(** The borrower-view score in the words of the specification: 650, plus 5
    for every entry whose status is 'ontime', minus 10 for every entry
    whose status is 'late', clamped to [300, 850]. *)
Definition specEntryPoints (p : ScoredPayment.t) : Z :=
  match ScoredPayment.status p with
  | Some st =>
      if (st =? "ontime")%string then 5
      else if (st =? "late")%string then -10
      else 0
  | None => 0
  end.

Definition specScoreForBorrower (ps : list ScoredPayment.t) : Z :=
  clamp 300 850 (fold_right (fun p acc => specEntryPoints p + acc) 650 ps).





(** One repayment call: who calls, how much, and the clock reading. *)
Record PaymentCall := mkPaymentCall {
  pc_caller : AuthUser;
  pc_amount : float;
  pc_now : Z
}.

Definition paymentRequest (applicationId : ObjectId) (call : PaymentCall) : Request :=
  let caller := Token (pc_caller call) in
  (RecordPayment caller applicationId (pc_amount call) (pc_now call)).

(** The payment records of one application. *)
Definition paymentsFor (id : ObjectId) (s : Store) : list LoanPayment.t :=
  filter (byId LoanPayment.applicationId id) (loanPayments s).

(** The [isActive] flag of the offer with the given id, if there is one. *)
Definition offerIsActive (offerId : ObjectId) (s : Store) : option bool :=
  option_map LoanOffer.isActive (findOne (byId LoanOffer._id offerId) (loanOffers s)).

(** Two applications that agree on every field but [status]. *)
Definition sameButStatus (a b : LoanApplication.t) : Prop :=
  LoanApplication._id b = LoanApplication._id a /\
  LoanApplication.borrowerId b = LoanApplication.borrowerId a /\
  LoanApplication.loanOfferId b = LoanApplication.loanOfferId a /\
  LoanApplication.nationalId b = LoanApplication.nationalId a /\
  LoanApplication.monthlySalary b = LoanApplication.monthlySalary a /\
  LoanApplication.reason b = LoanApplication.reason a.

(** The response carries a token. *)
Definition issuesToken (r : Response) : Prop :=
  match body r with
  | LoginBody _ _ _ _ _ => True
  | _ => False
  end.

(** The user objects of a response body. *)
Definition userObjects (b : Body) : list UserView.t :=
  match b with
  | UserBody (Some v) => [v]
  | UsersBody vs => vs
  | BorrowersBody data => map bd_borrower data
  | _ => []
  end.

Definition noPasswordField (r : Response) : Prop :=
  Forall (fun v => UserView.password v = None) (userObjects (body r)).

(** Two stores that differ at most in the stored password hashes. *)
Definition sameUpToPasswords (s1 s2 : Store) : Prop :=
  map excludePassword (users s1) = map excludePassword (users s2) /\
  loanOffers s1 = loanOffers s2 /\
  loanApplications s1 = loanApplications s2 /\
  loanPayments s1 = loanPayments s2 /\
  nextId s1 = nextId s2.

(** ** Sample data *)

Definition sampleExternals : Externals :=
  mkExternals (fun password => "hash:" ++ password)
              (fun password hash => (("hash:" ++ password) =? hash)%string)
              (fun payload => "token:" ++ au_email payload ++ ":" ++ au_role payload).

Definition alice : AuthUser := mkAuthUser 1%nat "alice@example.com" "borrower".
Definition bob : AuthUser := mkAuthUser 2%nat "bob@example.com" "borrower".
Definition lara : AuthUser := mkAuthUser 3%nat "lara@example.com" "lender".
Definition root : AuthUser := mkAuthUser 4%nat "root@example.com" "admin".

Definition sampleStore : Store :=
  mkStore
    [ User.mk 1%nat "Alice" "alice@example.com" "hash:a" "borrower";
      User.mk 2%nat "Bob" "bob@example.com" "hash:b" "borrower";
      User.mk 3%nat "Lara" "lara@example.com" "hash:l" "lender";
      User.mk 4%nat "Root" "root@example.com" "hash:r" "admin" ]
    [ LoanOffer.mk 10%nat 3%nat 5000 12 24 true ]
    [ LoanApplication.mk 20%nat 1%nat 10%nat "ID-1" 900 "car" "pending" ]
    []
    30%nat.

(** The same store with other password hashes. *)
Definition sampleStoreRehashed : Store :=
  setUsers
    (map (fun u => User.mk (User._id u) (User.name u) (User.email u)
                     ("other:" ++ User.password u) (User.role u))
         (users sampleStore))
    sampleStore.

(** An application whose [loanOfferId] names no offer: the borrower route
    stores whatever id the request carries. *)
Definition danglingStore : Store :=
  snd (createApplication (Token alice)
         (mkApplicationInput (Some 99%nat) (Some "ID-1") (Some 900) (Some "car"))
         emptyStore).

(** A payment record with [n] entries, and an application with a status. *)
Definition recordWithEntries (n : nat) : LoanPayment.t :=
  LoanPayment.mk 0%nat 0%nat 0 (repeat (PaymentEntry.mk 0 0) n).
Definition applicationWithStatus (st : string) : LoanApplication.t :=
  LoanApplication.mk 0%nat 0%nat 0%nat EmptyString 0 EmptyString st.

(** The sample store after the lender has approved application 20. *)
Definition approvedStore : Store :=
  snd (setApplicationStatus (Token lara) 20%nat "approved" sampleStore).

(** ** Read-only routes *)

(** What a GET route answers: an error response of the guards, or a status
    with a JSON value of the route's own shape.  These routes only issue
    [find] queries; the store is read and never written. *)
Inductive Answer (A : Type) :=
| Refused (r : Response)
| Json (code : nat) (value : A).
Arguments Refused {A} r.
Arguments Json {A} code value.

Definition View (A : Type) : Type := Store -> Answer A.

(** [authenticate] (lines 59-70) in front of a read-only route. *)
Definition authenticateView {A} (c : Credentials) (next : AuthUser -> View A) : View A :=
  match c with
  | NoToken => fun _ => Refused (mkResponse 401 (ErrorBody "No token provided"))
  | InvalidToken => fun _ => Refused (mkResponse 401 (ErrorBody "Invalid token"))
  | Token decoded => next decoded
  end.

(** The role check in front of a read-only route. *)
Definition requireRoleView {A} (r : string) (user : AuthUser) (next : View A) : View A :=
  if negb (au_role user =? r)%string
  then fun _ => Refused (mkResponse 403 (ErrorBody "Forbidden"))
  else next.

(** A user reference after [.populate(path, 'name')] or
    [.populate(path, 'name email')]: the selected paths and [_id]. *)
Module UserRef.
Record t := mk {
  _id : ObjectId;
  name : string;
  email : option string
}.
End UserRef.

Definition selectName (u : User.t) : UserRef.t :=
  UserRef.mk (User._id u) (User.name u) None.

Definition selectNameEmail (u : User.t) : UserRef.t :=
  UserRef.mk (User._id u) (User.name u) (Some (User.email u)).

(** An offer after [.populate('lenderId', ...)]: [null] when no user has
    the lender's id. *)
Record OfferWithLender := mkOfferWithLender {
  ol_doc : LoanOffer.t;
  ol_lenderId : option UserRef.t
}.

Definition populateLender (select : User.t -> UserRef.t) (s : Store) (o : LoanOffer.t)
  : OfferWithLender :=
  mkOfferWithLender o
    (option_map select (findOne (byId User._id (LoanOffer.lenderId o)) (users s))).

(** GET /api/lender/loan-offers, lines 140-149. *)
Definition listOwnOffers (c : Credentials) : View (list LoanOffer.t) :=
  authenticateView c (fun user =>
    requireRoleView "lender" user (fun s =>
      let offers := filter (byId LoanOffer.lenderId (au_id user)) (loanOffers s) in
      Json 200 offers)).

(** GET /api/borrower/loan-offers, lines 216-225. *)
Definition listActiveOffers (c : Credentials) : View (list OfferWithLender) :=
  authenticateView c (fun user =>
    requireRoleView "borrower" user (fun s =>
      let offers :=
        map (populateLender selectName s) (filter LoanOffer.isActive (loanOffers s)) in
      Json 200 offers)).

(** GET /api/admin/loan-offers, lines 399-407. *)
Definition listAllOffers (c : Credentials) : View (list OfferWithLender) :=
  authenticateView c (fun user =>
    requireRoleView "admin" user (fun s =>
      let offers := map (populateLender selectNameEmail s) (loanOffers s) in
      Json 200 offers)).

(** A JavaScript object used as a map from the string of an ObjectId. *)
Definition JsMap (V : Type) : Type := ObjectId -> option V.

Definition emptyJsMap {V} : JsMap V := fun _ => None.

(** [m[key] = v] *)
Definition setKey {V} (key : ObjectId) (v : V) (m : JsMap V) : JsMap V :=
  fun k => if (k =? key)%nat then Some v else m k.

(** The value stored under an application id by the lender view. *)
Record PaymentInfo := mkPaymentInfo {
  pi_amountPaid : float;
  pi_payments : list PaymentEntry.t
}.

(** An offer after [.populate('loanOfferId', 'amount interestRate')]. *)
Record OfferTerms := mkOfferTerms {
  ot_id : ObjectId;
  ot_amount : Z;
  ot_interestRate : Z
}.

Definition selectTerms (o : LoanOffer.t) : OfferTerms :=
  mkOfferTerms (LoanOffer._id o) (LoanOffer.amount o) (LoanOffer.interestRate o).

(** One element of the array answered by GET /api/lender/applications. *)
Record EnrichedApplication := mkEnrichedApplication {
  ea_doc : LoanApplication.t;
  ea_borrowerId : option UserRef.t;
  ea_loanOfferId : option OfferTerms;
  ea_paymentInfo : option PaymentInfo
}.

(** GET /api/lender/applications, lines 152-183. *)
Definition listApplicationsForLenderOffers (c : Credentials)
  : View (list EnrichedApplication) :=
  authenticateView c (fun user =>
    requireRoleView "lender" user (fun s =>
      let offerIds :=
        map LoanOffer._id
          (filter (byId LoanOffer.lenderId (au_id user)) (loanOffers s)) in
      let applications :=
        filter (fun a => existsb (Nat.eqb (LoanApplication.loanOfferId a)) offerIds)
          (loanApplications s) in
      let appIds := map LoanApplication._id applications in
      let payments :=
        filter (fun p => existsb (Nat.eqb (LoanPayment.applicationId p)) appIds)
          (loanPayments s) in
      let paymentMap :=
        fold_left
          (fun m p =>
             setKey (LoanPayment.applicationId p)
               (mkPaymentInfo (LoanPayment.amountPaid p) (LoanPayment.payments p)) m)
          payments emptyJsMap in
      let enrichedApps :=
        map (fun app =>
               mkEnrichedApplication app
                 (option_map selectNameEmail
                    (findOne (byId User._id (LoanApplication.borrowerId app)) (users s)))
                 (option_map selectTerms
                    (findOne (byId LoanOffer._id (LoanApplication.loanOfferId app))
                       (loanOffers s)))
                 (paymentMap (LoanApplication._id app)))
            applications in
      Json 200 enrichedApps)).

(** [v || 0] for a number that may be undefined. *)
Definition orZero (v : option Z) : Z :=
  match v with
  | Some n => if n =? 0 then 0 else n
  | None => 0
  end.

(** One element of the array answered by GET /api/borrower/payments. *)
Record EnrichedPayment := mkEnrichedPayment {
  ep_doc : LoanPayment.t;
  ep_loanAmount : Z;
  ep_interestRate : Z
}.

(** [appMap[key]?.field]: [undefined] when the key is absent or the stored
    offer is [null]. *)
Definition offerField (field : LoanOffer.t -> Z) (appMap : JsMap (option LoanOffer.t))
    (key : ObjectId) : option Z :=
  match appMap key with
  | Some (Some offer) => Some (field offer)
  | _ => None
  end.

(** GET /api/borrower/payments, lines 260-279. *)
Definition listOwnPayments (c : Credentials) : View (list EnrichedPayment) :=
  authenticateView c (fun user =>
    requireRoleView "borrower" user (fun s =>
      let apps :=
        map (populateLoanOffer s)
          (filter (byId LoanApplication.borrowerId (au_id user)) (loanApplications s)) in
      let appMap :=
        fold_left
          (fun m app => setKey (LoanApplication._id (pa_doc app)) (pa_loanOfferId app) m)
          apps emptyJsMap in
      let appIds := map (fun a => LoanApplication._id (pa_doc a)) apps in
      let payments :=
        filter (fun p => existsb (Nat.eqb (LoanPayment.applicationId p)) appIds)
          (loanPayments s) in
      let enriched :=
        map (fun p =>
               mkEnrichedPayment p
                 (orZero (offerField LoanOffer.amount appMap (LoanPayment.applicationId p)))
                 (orZero (offerField LoanOffer.interestRate appMap
                            (LoanPayment.applicationId p))))
            payments in
      Json 200 enriched)).

(** The value of [borrower.payments] on a user document.  [UserSchema]
    (lines 19-24) declares [name], [email], [password] and [role] only, and
    users are written through that schema alone: the document has no such
    property, whatever the other collections hold. *)
Definition paymentsOfUserDocument (borrower : User.t)
    : option (list ScoredPayment.t) :=
  None.

(** GET /api/borrower/credit-score, lines 430-460.  [strictPopulate] is the
    Mongoose option of that name, on by default since Mongoose 6: with it,
    populating a path the schema lacks throws; without it the call is
    ignored.  A query that finds no document populates nothing and answers
    [null], and reading [borrower.payments] then throws. *)
Definition borrowerCreditScore (strictPopulate : bool) (c : Credentials) : View Z :=
  authenticateView c (fun user =>
    requireRoleView "borrower" user (fun s =>
      match findOne (byId User._id (au_id user)) (users s) with
      | Some borrower =>
          if strictPopulate
          then Refused (mkResponse 500
                          (ErrorBody "Cannot populate path `applications` because it is not in your schema. Set the `strictPopulate` option to false to override."))
          else Json 200 (scoreForBorrower (paymentsOfUserDocument borrower))
      | None =>
          Refused (mkResponse 500
                     (ErrorBody "Cannot read properties of null (reading 'payments')"))
      end)).

(** ** Vocabulary of the access policy *)

(** The credentials a request carries; the two auth routes take none. *)
Definition credentialsOf (req : Request) : option Credentials :=
  match req with
  | Register _ | Login _ => None
  | CreateOffer c _ | SetApplicationStatus c _ _ | CreateApplication c _
  | RecordPayment c _ _ _ | ListUsers c | ListBorrowers c | DeleteUser c _
  | SetUserRole c _ _ => Some c
  end.

(** The role the route of a request compares [req.user.role] with. *)
Definition requiredRole (req : Request) : option string :=
  match req with
  | Register _ | Login _ => None
  | CreateOffer _ _ | SetApplicationStatus _ _ _ => Some "lender"
  | CreateApplication _ _ | RecordPayment _ _ _ _ => Some "borrower"
  | ListUsers _ | ListBorrowers _ | DeleteUser _ _ | SetUserRole _ _ _ => Some "admin"
  end.

Definition isToken (c : Credentials) : bool :=
  match c with
  | Token _ => true
  | _ => false
  end.

(** The ids of a collection are pairwise distinct. *)
Definition uniqueIds {A} (_id : A -> ObjectId) (docs : list A) : Prop :=
  NoDup (map _id docs).

(** The store invariants the routes maintain from an empty database: every
    id was handed out by the generator, ids are distinct inside a
    collection, emails are distinct, an application has at most one
    payment record, and a payment record belongs to a stored application. *)
Record wellFormed (s : Store) : Prop := mkWellFormed {
  wf_users_below : Forall (fun u => (User._id u < nextId s)%nat) (users s);
  wf_offers_below : Forall (fun o => (LoanOffer._id o < nextId s)%nat) (loanOffers s);
  wf_apps_below :
    Forall (fun a => (LoanApplication._id a < nextId s)%nat) (loanApplications s);
  wf_payments_below :
    Forall (fun p => (LoanPayment._id p < nextId s)%nat) (loanPayments s);
  wf_users_unique : uniqueIds User._id (users s);
  wf_offers_unique : uniqueIds LoanOffer._id (loanOffers s);
  wf_apps_unique : uniqueIds LoanApplication._id (loanApplications s);
  wf_payments_unique : uniqueIds LoanPayment._id (loanPayments s);
  wf_emails_unique : NoDup (map User.email (users s));
  wf_one_record : NoDup (map LoanPayment.applicationId (loanPayments s));
  wf_record_application :
    Forall (fun p =>
              findOne (byId LoanApplication._id (LoanPayment.applicationId p))
                (loanApplications s) <> None)
           (loanPayments s)
}.

(** A payment record that only gained entries at the end, with their
    amounts added to [amountPaid] one after the other. *)
Definition extendsRecord (old new : LoanPayment.t) : Prop :=
  LoanPayment._id new = LoanPayment._id old /\
  LoanPayment.applicationId new = LoanPayment.applicationId old /\
  exists added,
    LoanPayment.payments new = (LoanPayment.payments old ++ added)%list /\
    LoanPayment.amountPaid new
    = fold_left PrimFloat.add (map PaymentEntry.amount added)
        (LoanPayment.amountPaid old).

(** An offer whose terms are as before and that was not reactivated. *)
Definition sameTerms (old new : LoanOffer.t) : Prop :=
  LoanOffer._id new = LoanOffer._id old /\
  LoanOffer.lenderId new = LoanOffer.lenderId old /\
  LoanOffer.amount new = LoanOffer.amount old /\
  LoanOffer.interestRate new = LoanOffer.interestRate old /\
  LoanOffer.maxTermMonths new = LoanOffer.maxTermMonths old /\
  (LoanOffer.isActive old = false -> LoanOffer.isActive new = false).

(** [news] keeps every document of [olds] at its place, related by [R],
    and may hold more documents after them. *)
Definition grownFrom {A} (R : A -> A -> Prop) (olds news : list A) : Prop :=
  exists kept added, news = (kept ++ added)%list /\ Forall2 R olds kept.

(** A read-only route that refused the request with an error of a kind. *)
Definition refusedAs {A} (kind : ErrorKind) (answer : Answer A) : Prop :=
  match answer with
  | Refused r => errorKind r = Some kind
  | Json _ _ => False
  end.

(** What the borrower's offer list shows of a lender: the id and the name
    of a stored user with the offer's [lenderId], no email; or [null] when
    no user has that id. *)
Definition showsLenderNameOnly (s : Store) (o : OfferWithLender) : Prop :=
  match ol_lenderId o with
  | Some ref =>
      UserRef.email ref = None /\
      exists u,
        In u (users s) /\
        User._id u = LoanOffer.lenderId (ol_doc o) /\
        UserRef._id ref = User._id u /\
        UserRef.name ref = User.name u
  | None => forall u, In u (users s) -> User._id u <> LoanOffer.lenderId (ol_doc o)
  end.

(** ** The writes of the routes *)

(** One write to the store, as the routes issue them. *)
Inductive effect (s : Store) : Store -> Prop :=
| effect_insert_user name email password role :
    findOne (fun u => (User.email u =? email)%string) (users s) = None ->
    effect s
      (bumpNextId
         (setUsers (users s ++ [User.mk (nextId s) name email password role]) s))
| effect_insert_offer lenderId amount interestRate maxTermMonths :
    effect s
      (bumpNextId
         (setLoanOffers
            (loanOffers s
             ++ [LoanOffer.mk (nextId s) lenderId amount interestRate maxTermMonths true])
            s))
| effect_insert_application borrowerId loanOfferId nationalId monthlySalary reason :
    effect s
      (bumpNextId
         (setLoanApplications
            (loanApplications s
             ++ [LoanApplication.mk (nextId s) borrowerId loanOfferId nationalId
                   monthlySalary reason "pending"])
            s))
| effect_insert_payment applicationId :
    findOne (byId LoanPayment.applicationId applicationId) (loanPayments s) = None ->
    findOne (byId LoanApplication._id applicationId) (loanApplications s) <> None ->
    effect s
      (bumpNextId
         (setLoanPayments
            (loanPayments s ++ [LoanPayment.mk (nextId s) applicationId 0 []]) s))
| effect_deactivate offerId :
    effect s
      (setLoanOffers
         (updateOne (byId LoanOffer._id offerId) (LoanOffer.setIsActive false)
            (loanOffers s)) s)
| effect_status id status :
    effect s
      (setLoanApplications
         (updateOne (byId LoanApplication._id id) (LoanApplication.setStatus status)
            (loanApplications s)) s)
| effect_pay applicationId now amount :
    effect s
      (setLoanPayments
         (updateOne (byId LoanPayment.applicationId applicationId)
            (LoanPayment.incAndPush now amount) (loanPayments s)) s)
| effect_delete_user id :
    effect s (setUsers (deleteOne (byId User._id id) (users s)) s)
| effect_role id role :
    effect s
      (setUsers (updateOne (byId User._id id) (User.setRole role) (users s)) s).

(** The writes of one request, in the order they are issued. *)
Inductive effects (s : Store) : Store -> Prop :=
| effects_none : effects s s
| effects_then s1 s2 : effects s s1 -> effect s1 s2 -> effects s s2.

(** ** A store built by the routes *)

Definition laraToken : AuthUser := mkAuthUser 0%nat "lara@example.com" "lender".
Definition aliceToken : AuthUser := mkAuthUser 1%nat "alice@example.com" "borrower".
Definition rootToken : AuthUser := mkAuthUser 2%nat "root@example.com" "admin".
Definition bobToken : AuthUser := mkAuthUser 3%nat "bob@example.com" "borrower".

(** Four registrations, one offer, one application by Alice, its approval
    and one repayment. *)
Definition liveRequests : list Request :=
  [ Register (mkRegisterInput (Some "Lara") (Some "lara@example.com") (Some "l")
                (Some "lender"));
    Register (mkRegisterInput (Some "Alice") (Some "alice@example.com") (Some "a")
                (Some "borrower"));
    Register (mkRegisterInput (Some "Root") (Some "root@example.com") (Some "r")
                (Some "admin"));
    Register (mkRegisterInput (Some "Bob") (Some "bob@example.com") (Some "b")
                (Some "borrower"));
    CreateOffer (Token laraToken) (mkOfferInput (Some 5000) (Some 12) (Some 24));
    CreateApplication (Token aliceToken)
      (mkApplicationInput (Some 4%nat) (Some "ID-1") (Some 900) (Some "car"));
    SetApplicationStatus (Token laraToken) 5%nat "approved";
    (RecordPayment (Token aliceToken) 5%nat 100 7) ].

Definition liveStore : Store := serve sampleExternals liveRequests emptyStore.

(** The same store before the approval. *)
Definition pendingStore : Store :=
  serve sampleExternals (firstn 6 liveRequests) emptyStore.

(** ** Proof automation for routes *)

Ltac unfold_route :=
  unfold authenticate, requireRole, tryCatch, bind, ret, reply, throw,
         getStore, modify in *.

(** Case analysis on the innermost scrutinee of the goal. *)
Ltac break_inner x :=
  lazymatch x with
  | context [match ?y with _ => _ end] => break_inner y
  | _ => destruct x eqn:?
  end.

Ltac break_match :=
  match goal with
  | |- context [match ?x with _ => _ end] => break_inner x
  end.

Ltac route_cases :=
  unfold_route; repeat (cbn beta iota zeta; cbn [fst snd]; try break_match).

(** * Properties *)

(** ** Sample runs *)

Example register_then_login :
  let registered :=
    register sampleExternals
      (mkRegisterInput (Some "Dana") (Some "dana@example.com") (Some "pw")
         (Some "borrower"))
      emptyStore in
  fst registered = mkResponse 201 (MessageBody "User registered successfully!") /\
  users (snd registered)
  = [User.mk 0%nat "Dana" "dana@example.com" "hash:pw" "borrower"] /\
  fst (login sampleExternals (stringLogin "dana@example.com" "pw" "borrower")
         (snd registered))
  = mkResponse 200
      (LoginBody "Login successful!" "token:dana@example.com:borrower"
         "Dana" "dana@example.com" "borrower").
Proof. repeat split. Qed.

Example repayments_add_as_doubles :
  let paid calls :=
    option_map LoanPayment.amountPaid
      (findOne (byId LoanPayment.applicationId 20%nat)
         (loanPayments
            (serve sampleExternals (map (paymentRequest 20%nat) calls) approvedStore))) in
  paid [mkPaymentCall alice 0.5 1; mkPaymentCall alice 0.25 2] = Some 0.75%float /\
  paid [mkPaymentCall alice 9007199254740992 1; mkPaymentCall alice 1 2]
  = Some 9007199254740992%float.
Proof. split; reflexivity. Qed.

Example repayment_without_amount :
  recordPayment (Token alice) 20%nat NotANumber 7 approvedStore
  = (mkResponse 500 (ErrorBody "Cast to Number failed"), approvedStore).
Proof. reflexivity. Qed.

Example approvedStore_contents :
  loanOffers approvedStore = [LoanOffer.mk 10%nat 3%nat 5000 12 24 false] /\
  loanApplications approvedStore
  = [LoanApplication.mk 20%nat 1%nat 10%nat "ID-1" 900 "car" "approved"] /\
  loanPayments approvedStore = [LoanPayment.mk 30%nat 20%nat 0 []] /\
  nextId approvedStore = 31%nat.
Proof. repeat split. Qed.

Example danglingStore_contents :
  loanOffers danglingStore = [] /\
  loanApplications danglingStore
  = [LoanApplication.mk 0%nat 1%nat 99%nat "ID-1" 900 "car" "pending"].
Proof. repeat split. Qed.

Example roles_are_enforced :
  errorKind (fst (recordPayment (Token lara) 20%nat 100 7 approvedStore))
  = Some Forbidden /\
  errorKind (fst (recordPayment NoToken 20%nat 100 7 approvedStore))
  = Some Unauthorized /\
  errorKind (fst (setApplicationStatus (Token lara) 77%nat "approved" sampleStore))
  = Some NotFound.
Proof. repeat split. Qed.

(** ** Credit scoring *)

Lemma clamp_min_max lo hi x :
  lo <= hi -> Z.min (Z.max x lo) hi = clamp lo hi x.
Proof.
  intros Hle. unfold clamp.
  destruct (Z.ltb_spec x lo); [lia|].
  destruct (Z.ltb_spec hi x); lia.
Qed.

Lemma clamp_max_min lo hi x :
  lo <= hi -> Z.max lo (Z.min x hi) = clamp lo hi x.
Proof.
  intros Hle. unfold clamp.
  destruct (Z.ltb_spec x lo); [lia|].
  destruct (Z.ltb_spec hi x); lia.
Qed.

Lemma clamp_bounds lo hi x : lo <= hi -> lo <= clamp lo hi x <= hi.
Proof.
  intros Hle. unfold clamp.
  destruct (Z.ltb_spec x lo); [lia|].
  destruct (Z.ltb_spec hi x); lia.
Qed.

Lemma totalPayments_from acc ps :
  fold_left (fun sum p => sum + Z.of_nat (length (LoanPayment.payments p))) ps acc
  = acc + Z.of_nat (length (flat_map LoanPayment.payments ps)).
Proof.
  revert acc. induction ps as [|p ps IH]; intros acc; simpl.
  - lia.
  - rewrite IH, length_app. lia.
Qed.

Lemma totalPayments_entries ps :
  totalPayments ps = Z.of_nat (length (flat_map LoanPayment.payments ps)).
Proof. unfold totalPayments. rewrite totalPayments_from. lia. Qed.

Lemma approvedLoans_points apps :
  approvedLoans apps * 20 = specAdminPoints apps.
Proof.
  unfold approvedLoans.
  induction apps as [|a apps IH]; simpl; [reflexivity|].
  destruct (LoanApplication.status a =? "approved")%string; simpl length; lia.
Qed.

Lemma calculateCreditScore_spec apps ps :
  calculateCreditScore (mkScoreInput apps ps) = specScoreForAdmin apps ps.
Proof.
  unfold calculateCreditScore, specScoreForAdmin.
  cbv beta zeta. unfold si_payments, si_applications.
  rewrite clamp_min_max by lia. f_equal.
  assert (Hp : (if (0 <? length ps)%nat then 700 + totalPayments ps * 5 else 700)
               = 700 + 5 * Z.of_nat (length (flat_map LoanPayment.payments ps))).
  { destruct ps as [|p ps]; [reflexivity|].
    change (0 <? length (p :: ps))%nat with true. cbv iota.
    rewrite totalPayments_entries. lia. }
  rewrite Hp.
  destruct apps as [|a apps]; [simpl; lia|].
  change (0 <? length (a :: apps))%nat with true. cbv iota.
  rewrite approvedLoans_points. reflexivity.
Qed.

(** C1. The admin-view score is a function of the applications and the
    payment records alone: 700, plus 5 for every payment entry over all
    payment records, plus 20 for every approved application, clamped to
    [300, 850].  Empty inputs give 700; 3 payment entries (here spread over
    two records) with 2 approved applications (next to a pending and a
    rejected one) give 755; 1000 entries give 850. *)
Theorem admin_score_formula :
  (forall apps ps,
      calculateCreditScore (mkScoreInput apps ps) = specScoreForAdmin apps ps) /\
  (forall borrower, 300 <= calculateCreditScore borrower <= 850) /\
  calculateCreditScore (mkScoreInput [] []) = 700 /\
  calculateCreditScore
    (mkScoreInput
       [applicationWithStatus "approved"; applicationWithStatus "pending";
        applicationWithStatus "approved"; applicationWithStatus "rejected"]
       [recordWithEntries 2; recordWithEntries 0; recordWithEntries 1]) = 755 /\
  calculateCreditScore (mkScoreInput [] [recordWithEntries 1000]) = 850.
Proof.
  split; [exact calculateCreditScore_spec|].
  split.
  { intros [apps ps]. rewrite calculateCreditScore_spec.
    apply clamp_bounds. lia. }
  split; [reflexivity|].
  split; [reflexivity|].
  vm_compute. reflexivity.
Qed.

Lemma specEntryPoints_statusIs p :
  specEntryPoints p
  = (if statusIs "ontime" p then 5 else 0) - (if statusIs "late" p then 10 else 0).
Proof.
  unfold specEntryPoints, statusIs.
  destruct (ScoredPayment.status p) as [st|]; [|reflexivity].
  destruct (String.eqb_spec st "ontime") as [->|Hon]; [reflexivity|].
  destruct (st =? "late")%string; reflexivity.
Qed.

Lemma ontime_late_points ps :
  650 + Z.of_nat (length (filter (statusIs "ontime") ps)) * 5
      - Z.of_nat (length (filter (statusIs "late") ps)) * 10
  = fold_right (fun p acc => specEntryPoints p + acc) 650 ps.
Proof.
  induction ps as [|p ps IH]; [reflexivity|].
  cbn [filter fold_right]. rewrite <- IH, specEntryPoints_statusIs.
  destruct (statusIs "ontime" p), (statusIs "late" p); cbn [length]; lia.
Qed.

Lemma scoreForBorrower_spec ps :
  scoreForBorrower (Some ps) = specScoreForBorrower ps.
Proof.
  unfold scoreForBorrower, specScoreForBorrower.
  rewrite clamp_max_min by lia. f_equal. apply ontime_late_points.
Qed.

Lemma no_status_points ps :
  Forall (fun p => ScoredPayment.status p = None) ps ->
  fold_right (fun p acc => specEntryPoints p + acc) 650 ps = 650.
Proof.
  induction 1 as [|p ps Hp _ IH]; [reflexivity|].
  cbn [fold_right]. rewrite IH. unfold specEntryPoints. rewrite Hp. reflexivity.
Qed.

(** The scoring lines of the borrower route, as a function of the value
    of [borrower.payments] when that is an array: 650, plus 5 for every
    entry whose status is 'ontime', minus 10 for every entry whose status
    is 'late', clamped to [300, 850]; exactly 650 when no entry has a
    status field. *)
Lemma scoreForBorrower_formula (ps : list ScoredPayment.t) :
  scoreForBorrower (Some ps) = specScoreForBorrower ps /\
  300 <= scoreForBorrower (Some ps) <= 850 /\
  (Forall (fun p => ScoredPayment.status p = None) ps ->
   scoreForBorrower (Some ps) = 650).
Proof.
  split; [apply scoreForBorrower_spec|].
  split.
  - rewrite scoreForBorrower_spec. apply clamp_bounds. lia.
  - intros Hnone. rewrite scoreForBorrower_spec. unfold specScoreForBorrower.
    rewrite no_status_points by assumption. reflexivity.
Qed.

(** C5. GET /api/borrower/credit-score does not compute the score of its
    scoring lines from any payment entry.  Alice is a stored borrower whose
    application has a payment record with one entry.  With Mongoose's
    strict populate, the default since Mongoose 6, her request is answered
    500: [applications] and [payments] are not paths of the user schema.
    Without it the answer is the base 650, because the user document has no
    [payments] property for the scoring lines to read.  Once her account is
    deleted her token still verifies, the query answers [null], and the
    request is answered 500 under either setting. *)
Theorem borrower_score_route_reads_no_payments :
  findOne (byId User._id 1%nat) (users liveStore)
  = Some (User.mk 1%nat "Alice" "alice@example.com" "hash:a" "borrower") /\
  loanPayments liveStore = [LoanPayment.mk 6%nat 5%nat 100 [PaymentEntry.mk 7 100]] /\
  refusedAs Internal (borrowerCreditScore true (Token aliceToken) liveStore) /\
  borrowerCreditScore false (Token aliceToken) liveStore = Json 200 650 /\
  (forall strictPopulate,
      borrowerCreditScore strictPopulate (Token aliceToken)
        (snd (deleteUser (Token rootToken) (Canonical 1%nat) liveStore))
      = Refused (mkResponse 500
                   (ErrorBody "Cannot read properties of null (reading 'payments')"))).
Proof.
  split; [reflexivity|]. split; [reflexivity|]. split; [reflexivity|].
  split; [reflexivity|]. intros strictPopulate. reflexivity.
Qed.

(** ** Queries and updates on a collection *)

Section CollectionFacts.
Context {A : Type}.
Implicit Types (pred : A -> bool) (upd : A -> A) (docs : list A).

Lemma updateOne_no_match pred upd docs :
  findOne pred docs = None -> updateOne pred upd docs = docs.
Proof.
  unfold findOne. induction docs as [|d rest IH]; simpl; [reflexivity|].
  destruct (pred d); [discriminate|].
  intros Hnone. rewrite IH by assumption. reflexivity.
Qed.

Lemma findOne_updateOne pred upd docs :
  (forall d, pred d = true -> pred (upd d) = true) ->
  findOne pred (updateOne pred upd docs)
  = option_map upd (findOne pred docs).
Proof.
  intros Hkeep. unfold findOne.
  induction docs as [|d rest IH]; simpl; [reflexivity|].
  destruct (pred d) eqn:Hd; simpl.
  - rewrite (Hkeep d Hd). reflexivity.
  - rewrite Hd. exact IH.
Qed.

Lemma findOne_updateOne_other pred other upd docs :
  (forall d, other (upd d) = other d) ->
  findOne other (updateOne pred upd docs) = None <-> findOne other docs = None.
Proof.
  intros Hkeep. unfold findOne.
  induction docs as [|d rest IH]; simpl; [tauto|].
  destruct (pred d) eqn:Hd; simpl.
  - rewrite Hkeep. destruct (other d); [split; discriminate | tauto].
  - destruct (other d); [split; discriminate | exact IH].
Qed.

Lemma updateOne_Forall (P : A -> Prop) pred upd docs :
  (forall d, P d -> P (upd d)) ->
  Forall P docs -> Forall P (updateOne pred upd docs).
Proof.
  intros Hupd. induction 1 as [|d rest Hd Hrest IH]; simpl; [constructor|].
  destruct (pred d); constructor; auto.
Qed.

Lemma updateOne_Forall2 pred upd docs :
  Forall2 (fun d d' => d' = d \/ (pred d = true /\ d' = upd d))
          docs (updateOne pred upd docs).
Proof.
  induction docs as [|d rest IH]; simpl; [constructor|].
  destruct (pred d) eqn:Hd; constructor; auto.
  clear. induction rest; constructor; auto.
Qed.

Lemma updateOne_idempotent pred upd docs :
  (forall d, pred d = true -> pred (upd d) = true) ->
  (forall d, upd (upd d) = upd d) ->
  updateOne pred upd (updateOne pred upd docs) = updateOne pred upd docs.
Proof.
  intros Hkeep Hidem.
  induction docs as [|d rest IH]; simpl; [reflexivity|].
  destruct (pred d) eqn:Hd; simpl.
  - rewrite (Hkeep d Hd), Hidem. reflexivity.
  - rewrite Hd, IH. reflexivity.
Qed.

Lemma deleteOne_Forall (P : A -> Prop) pred docs :
  Forall P docs -> Forall P (deleteOne pred docs).
Proof.
  induction 1 as [|d rest Hd Hrest IH]; simpl; [constructor|].
  destruct (pred d); [assumption | constructor; assumption].
Qed.

Lemma findOne_filter_nil pred docs :
  findOne pred docs = None <-> filter pred docs = [].
Proof.
  unfold findOne. induction docs as [|d rest IH]; simpl; [tauto|].
  destruct (pred d); [split; discriminate | exact IH].
Qed.

Lemma findOne_Some_In pred docs d :
  findOne pred docs = Some d -> In d docs /\ pred d = true.
Proof. apply find_some. Qed.
End CollectionFacts.

(** ** Unfolding the routes behind their guards *)

Lemma byId_true {A} (_id : A -> ObjectId) id d :
  byId _id id d = true <-> _id d = id.
Proof. unfold byId. apply Nat.eqb_eq. Qed.

Lemma recordPayment_borrower user applicationId (amount : float) now s :
  au_role user = "borrower" ->
  recordPayment (Token user) applicationId amount now s
  = (mkResponse 200
       (PaymentBody
          (option_map (LoanPayment.incAndPush now amount)
             (findOne (byId LoanPayment.applicationId applicationId) (loanPayments s)))),
     setLoanPayments
       (updateOne (byId LoanPayment.applicationId applicationId)
          (LoanPayment.incAndPush now amount) (loanPayments s)) s).
Proof.
  intros Hrole. unfold recordPayment, authenticate, requireRole.
  rewrite Hrole. reflexivity.
Qed.

Lemma setLoanPayments_same s : setLoanPayments (loanPayments s) s = s.
Proof. destruct s; reflexivity. Qed.

(** Without a payment record the route answers 200 with [null] and writes
    nothing. *)
Lemma recordPayment_no_record user applicationId (amount : float) now s :
  au_role user = "borrower" ->
  findOne (byId LoanPayment.applicationId applicationId) (loanPayments s) = None ->
  recordPayment (Token user) applicationId amount now s
  = (mkResponse 200 (PaymentBody None), s).
Proof.
  intros Hrole Hnone. rewrite recordPayment_borrower by assumption.
  rewrite Hnone, updateOne_no_match by assumption.
  rewrite setLoanPayments_same. reflexivity.
Qed.


(** C2. Paying against an application that has no payment record: the
    route answers status 200 with a [null] body, not a NotFound error; the
    store is left as it was. *)
Theorem recordPayment_missing_record_not_reported :
  recordPayment (Token alice) 20%nat 100 0 sampleStore
  = (mkResponse 200 (PaymentBody None), sampleStore) /\
  findOne (byId LoanPayment.applicationId 20%nat) (loanPayments sampleStore) = None /\
  errorKind (fst (recordPayment (Token alice) 20%nat 100 0 sampleStore)) <> Some NotFound.
Proof.
  split; [reflexivity|]. split; [reflexivity|].
  simpl. discriminate.
Qed.

(** C9. Two callers with role 'borrower' get the same answer and leave the
    same store: nothing but the role of the caller is looked at. *)
Theorem recordPayment_ignores_caller_identity
    (caller1 caller2 : AuthUser) (applicationId : ObjectId) (amount : BodyNumber)
    (now : Z) (s : Store) :
  au_role caller1 = "borrower" ->
  au_role caller2 = "borrower" ->
  recordPayment (Token caller1) applicationId amount now s
  = recordPayment (Token caller2) applicationId amount now s.
Proof.
  intros H1 H2. destruct amount as [amount|].
  - rewrite !recordPayment_borrower by assumption. reflexivity.
  - unfold recordPayment, authenticate, requireRole. rewrite H1, H2. reflexivity.
Qed.

Lemma recordPayment_ignores_caller_identity_witness :
  recordPayment (Token alice) 20%nat 100 7 approvedStore
  = recordPayment (Token bob) 20%nat 100 7 approvedStore.
Proof.
  apply (recordPayment_ignores_caller_identity alice bob 20%nat 100 7 approvedStore);
    reflexivity.
Defined.

(** ** The running total of a payment record *)




Lemma login_store ext b s : snd (login ext b s) = s.
Proof.
  unfold login. route_cases; reflexivity.
Qed.



Lemma listUsers_store c s : snd (listUsers c s) = s.
Proof.
  unfold listUsers. route_cases; reflexivity.
Qed.

Lemma listBorrowersWithDerivedData_store c s : snd (listBorrowersWithDerivedData c s) = s.
Proof.
  unfold listBorrowersWithDerivedData. route_cases; reflexivity.
Qed.








Lemma serve_cons ext req reqs s :
  serve ext (req :: reqs) s = serve ext reqs (snd (handle ext req s)).
Proof. reflexivity. Qed.




(** ** Approving and rejecting an application *)

(** What an approval by a lender does when the application and the offer
    it refers to are both in the store. *)
Lemma setApplicationStatus_approved lender id s a offer :
  au_role lender = "lender" ->
  findOne (byId LoanApplication._id id) (loanApplications s) = Some a ->
  findOne (byId LoanOffer._id (LoanApplication.loanOfferId a)) (loanOffers s) = Some offer ->
  setApplicationStatus (Token lender) id "approved" s
  = (mkResponse 200 (ApplicationBody (Some (LoanApplication.setStatus "approved" a))),
     mkStore
       (users s)
       (updateOne (byId LoanOffer._id (LoanApplication.loanOfferId a))
          (LoanOffer.setIsActive false) (loanOffers s))
       (updateOne (byId LoanApplication._id id)
          (LoanApplication.setStatus "approved") (loanApplications s))
       (match findOne (byId LoanPayment.applicationId id) (loanPayments s) with
        | Some _ => loanPayments s
        | None => loanPayments s ++ [LoanPayment.mk (nextId s) id 0 []]
        end)
       (match findOne (byId LoanPayment.applicationId id) (loanPayments s) with
        | Some _ => nextId s
        | None => S (nextId s)
        end)).
Proof.
  intros Hrole Happ Hoffer.
  assert (Hid : LoanOffer._id offer = LoanApplication.loanOfferId a).
  { apply findOne_Some_In in Hoffer. apply byId_true, Hoffer. }
  unfold setApplicationStatus, authenticate, requireRole. rewrite Hrole.
  change (negb ("lender" =? "lender")%string) with false. cbv iota.
  unfold tryCatch, bind, getStore, populateLoanOffer, findOneAndUpdate,
         createLoanPayment, modify, ret, reply.
  rewrite Happ. cbn [option_map pa_loanOfferId]. rewrite Hoffer, Hid.
  change ("approved" =? "approved")%string with true.
  cbn beta iota zeta. cbn [loanPayments setLoanOffers loanApplications].
  destruct (findOne (byId LoanPayment.applicationId id) (loanPayments s));
    cbn beta iota zeta;
    cbn [loanApplications setLoanOffers setLoanPayments bumpNextId
         setLoanApplications users loanOffers loanPayments nextId];
    rewrite Happ; reflexivity.
Qed.

(** What a lender's status change does for any status other than
    'approved'. *)
Lemma setApplicationStatus_not_approved lender id status s a :
  au_role lender = "lender" ->
  (status =? "approved")%string = false ->
  findOne (byId LoanApplication._id id) (loanApplications s) = Some a ->
  setApplicationStatus (Token lender) id status s
  = (mkResponse 200 (ApplicationBody (Some (LoanApplication.setStatus status a))),
     setLoanApplications
       (updateOne (byId LoanApplication._id id)
          (LoanApplication.setStatus status) (loanApplications s)) s).
Proof.
  intros Hrole Hstatus Happ.
  unfold setApplicationStatus, authenticate, requireRole. rewrite Hrole.
  change (negb ("lender" =? "lender")%string) with false. cbv iota.
  unfold tryCatch, bind, getStore, populateLoanOffer, findOneAndUpdate,
         modify, ret, reply.
  rewrite Happ, Hstatus. cbn beta iota zeta. cbn [option_map].
  rewrite Happ. reflexivity.
Qed.

Lemma setStatus_keeps_id id status d :
  byId LoanApplication._id id d = true ->
  byId LoanApplication._id id (LoanApplication.setStatus status d) = true.
Proof. intros H. exact H. Qed.

Lemma setIsActive_keeps_id id b d :
  byId LoanOffer._id id d = true ->
  byId LoanOffer._id id (LoanOffer.setIsActive b d) = true.
Proof. intros H. exact H. Qed.

Lemma findOne_app_last {A} (pred : A -> bool) docs d :
  findOne pred docs = None -> pred d = true ->
  findOne pred (docs ++ [d]) = Some d.
Proof.
  unfold findOne. induction docs as [|x rest IH]; simpl; intros Hnone Hd.
  - rewrite Hd. reflexivity.
  - destruct (pred x); [discriminate | auto].
Qed.

Lemma offer_inactive_after_update offerId offers offer :
  findOne (byId LoanOffer._id offerId) offers = Some offer ->
  option_map LoanOffer.isActive
    (findOne (byId LoanOffer._id offerId)
       (updateOne (byId LoanOffer._id offerId) (LoanOffer.setIsActive false) offers))
  = Some false.
Proof.
  intros Hoffer. rewrite findOne_updateOne, Hoffer; [reflexivity|].
  intros d. apply setIsActive_keeps_id.
Qed.

(** When the [loanOfferId] of a stored application names an offer of the
    store, two approvals in sequence
    both answer 200; the second creates no payment record; when the
    application had no payment record the first creates exactly one, with
    amountPaid 0 and no payments, and it is still the only one after the
    second; when it had one already, no record is created at all; the offer
    is inactive after the first and after the second approval. *)
Theorem approving_twice_creates_one_record
    (lender1 lender2 : AuthUser) (id : ObjectId) (s : Store)
    (a : LoanApplication.t) (offer : LoanOffer.t) :
  au_role lender1 = "lender" ->
  au_role lender2 = "lender" ->
  findOne (byId LoanApplication._id id) (loanApplications s) = Some a ->
  findOne (byId LoanOffer._id (LoanApplication.loanOfferId a)) (loanOffers s) = Some offer ->
  let first := setApplicationStatus (Token lender1) id "approved" s in
  let second := setApplicationStatus (Token lender2) id "approved" (snd first) in
  statusCode (fst first) = 200%nat /\
  statusCode (fst second) = 200%nat /\
  loanPayments (snd second) = loanPayments (snd first) /\
  (paymentsFor id s = [] ->
   paymentsFor id (snd first) = [LoanPayment.mk (nextId s) id 0 []] /\
   paymentsFor id (snd second) = [LoanPayment.mk (nextId s) id 0 []]) /\
  (paymentsFor id s <> [] -> loanPayments (snd first) = loanPayments s) /\
  offerIsActive (LoanApplication.loanOfferId a) (snd first) = Some false /\
  offerIsActive (LoanApplication.loanOfferId a) (snd second) = Some false.
Proof.
  intros Hrole1 Hrole2 Happ Hoffer first second.
  pose proof (setApplicationStatus_approved lender1 id s a offer Hrole1 Happ Hoffer)
    as Hfirst.
  fold first in Hfirst.
  set (s1 := snd first).
  assert (Happ1 : findOne (byId LoanApplication._id id) (loanApplications s1)
                  = Some (LoanApplication.setStatus "approved" a)).
  { unfold s1. rewrite Hfirst. cbn [snd loanApplications].
    rewrite findOne_updateOne, Happ; [reflexivity|].
    intros d. apply setStatus_keeps_id. }
  assert (Hoffer1 : findOne (byId LoanOffer._id (LoanApplication.loanOfferId a))
                      (loanOffers s1) = Some (LoanOffer.setIsActive false offer)).
  { unfold s1. rewrite Hfirst. cbn [snd loanOffers].
    rewrite findOne_updateOne, Hoffer; [reflexivity|].
    intros d. apply setIsActive_keeps_id. }
  assert (Hpay1 : exists p,
             findOne (byId LoanPayment.applicationId id) (loanPayments s1) = Some p).
  { unfold s1. rewrite Hfirst. cbn [snd loanPayments].
    destruct (findOne (byId LoanPayment.applicationId id) (loanPayments s))
      as [p|] eqn:Hp.
    - exists p. exact Hp.
    - eexists. apply findOne_app_last; [exact Hp|]. apply Nat.eqb_refl. }
  destruct Hpay1 as [p1 Hpay1].
  pose proof (setApplicationStatus_approved lender2 id s1
                (LoanApplication.setStatus "approved" a)
                (LoanOffer.setIsActive false offer) Hrole2 Happ1 Hoffer1) as Hsecond.
  change (setApplicationStatus (Token lender2) id "approved" s1) with second
    in Hsecond.
  rewrite Hpay1 in Hsecond.
  cbn [LoanApplication.loanOfferId LoanApplication.setStatus] in Hsecond.
  assert (Hsame : loanPayments (snd second) = loanPayments s1).
  { rewrite Hsecond. reflexivity. }
  split; [rewrite Hfirst; reflexivity|].
  split; [rewrite Hsecond; reflexivity|].
  split; [exact Hsame|].
  split; [|split; [|split]].
  - intros Hnone. unfold paymentsFor. rewrite Hsame.
    assert (Hone : filter (byId LoanPayment.applicationId id) (loanPayments s1)
                   = [LoanPayment.mk (nextId s) id 0 []]).
    { unfold paymentsFor in Hnone.
      pose proof (proj2 (findOne_filter_nil _ _) Hnone) as Hfind.
      unfold s1. rewrite Hfirst. cbn [snd loanPayments].
      rewrite Hfind, filter_app, Hnone. cbn [filter app]. unfold byId at 1.
      cbn [LoanPayment.applicationId]. rewrite Nat.eqb_refl. reflexivity. }
    split; exact Hone.
  - intros Hsome. fold s1. unfold s1. rewrite Hfirst. cbn [snd loanPayments].
    destruct (findOne (byId LoanPayment.applicationId id) (loanPayments s)) eqn:Hp;
      [reflexivity|].
    apply findOne_filter_nil in Hp. contradiction.
  - unfold offerIsActive. fold s1. unfold s1. rewrite Hfirst. cbn [snd loanOffers].
    apply (offer_inactive_after_update _ _ offer Hoffer).
  - unfold offerIsActive. rewrite Hsecond. cbn [snd loanOffers].
    apply (offer_inactive_after_update _ _ _ Hoffer1).
Qed.

Lemma approving_twice_creates_one_record_witness :
  let first := setApplicationStatus (Token lara) 20%nat "approved" sampleStore in
  let second := setApplicationStatus (Token lara) 20%nat "approved" (snd first) in
  statusCode (fst first) = 200%nat /\
  statusCode (fst second) = 200%nat /\
  loanPayments (snd second) = loanPayments (snd first) /\
  (paymentsFor 20%nat sampleStore = [] ->
   paymentsFor 20%nat (snd first) = [LoanPayment.mk 30%nat 20%nat 0 []] /\
   paymentsFor 20%nat (snd second) = [LoanPayment.mk 30%nat 20%nat 0 []]) /\
  (paymentsFor 20%nat sampleStore <> [] ->
   loanPayments (snd first) = loanPayments sampleStore) /\
  offerIsActive 10%nat (snd first) = Some false /\
  offerIsActive 10%nat (snd second) = Some false.
Proof.
  apply (approving_twice_creates_one_record lara lara 20%nat sampleStore
           (LoanApplication.mk 20%nat 1%nat 10%nat "ID-1" 900 "car" "pending")
           (LoanOffer.mk 10%nat 3%nat 5000 12 24 true));
    reflexivity.
Defined.

(** C3. Approving an existing application does not always create its
    payment record.  One request to the empty database stores application 0
    with a [loanOfferId] that names no offer ([danglingStore]); the
    application exists and has no payment record.  The handler tests the
    application for [null] but not the populated offer: reading
    [loanOfferId._id] throws, both approvals are answered 500, and no
    payment record is created. *)
Theorem approving_dangling_application_creates_no_record :
  let first := setApplicationStatus (Token lara) 0%nat "approved" danglingStore in
  let second := setApplicationStatus (Token lara) 0%nat "approved" (snd first) in
  danglingStore
  = snd (handle sampleExternals
           (CreateApplication (Token alice)
              (mkApplicationInput (Some 99%nat) (Some "ID-1") (Some 900) (Some "car")))
           emptyStore) /\
  findOne (byId LoanApplication._id 0%nat) (loanApplications danglingStore)
  = Some (LoanApplication.mk 0%nat 1%nat 99%nat "ID-1" 900 "car" "pending") /\
  paymentsFor 0%nat danglingStore = [] /\
  statusCode (fst first) = 500%nat /\
  statusCode (fst second) = 500%nat /\
  paymentsFor 0%nat (snd second) = [] /\
  length (paymentsFor 0%nat (snd second)) <> 1%nat.
Proof.
  cbv zeta. repeat split; try reflexivity.
  vm_compute. discriminate.
Qed.

Lemma sameButStatus_refl a : sameButStatus a a.
Proof. repeat split. Qed.

Lemma sameButStatus_setStatus status a :
  sameButStatus a (LoanApplication.setStatus status a).
Proof. repeat split. Qed.

Lemma updateOne_status_frame id status apps :
  Forall2 (fun old new =>
             (LoanApplication._id old <> id -> new = old) /\ sameButStatus old new)
          apps
          (updateOne (byId LoanApplication._id id)
             (LoanApplication.setStatus status) apps).
Proof.
  eapply Forall2_impl; [|apply updateOne_Forall2].
  intros old new [->|[Hid ->]].
  - split; [reflexivity | apply sameButStatus_refl].
  - split; [|apply sameButStatus_setStatus].
    intros Hne. apply byId_true in Hid. contradiction.
Qed.

(** C6. A lender's rejection of an application of the store answers the
    application with status 'rejected' and touches nothing else: users,
    offers, payment records and the id counter are as before, every
    application with another id is unchanged, and an application may differ
    from its former self in the status field only. *)
Theorem rejecting_changes_only_status
    (lender : AuthUser) (id : ObjectId) (s : Store) (a : LoanApplication.t) :
  au_role lender = "lender" ->
  findOne (byId LoanApplication._id id) (loanApplications s) = Some a ->
  let result := setApplicationStatus (Token lender) id "rejected" s in
  fst result
  = mkResponse 200 (ApplicationBody (Some (LoanApplication.setStatus "rejected" a))) /\
  users (snd result) = users s /\
  loanOffers (snd result) = loanOffers s /\
  loanPayments (snd result) = loanPayments s /\
  nextId (snd result) = nextId s /\
  Forall2 (fun old new =>
             (LoanApplication._id old <> id -> new = old) /\ sameButStatus old new)
          (loanApplications s) (loanApplications (snd result)) /\
  findOne (byId LoanApplication._id id) (loanApplications (snd result))
  = Some (LoanApplication.setStatus "rejected" a).
Proof.
  intros Hrole Happ result. unfold result.
  rewrite (setApplicationStatus_not_approved lender id "rejected" s a Hrole eq_refl Happ).
  cbn [fst snd users loanOffers loanPayments nextId loanApplications
       setLoanApplications].
  repeat split.
  - apply updateOne_status_frame.
  - rewrite findOne_updateOne, Happ; [reflexivity|].
    intros d. apply setStatus_keeps_id.
Qed.

Lemma rejecting_changes_only_status_witness :
  let result := setApplicationStatus (Token lara) 20%nat "rejected" approvedStore in
  fst result
  = mkResponse 200
      (ApplicationBody
         (Some (LoanApplication.mk 20%nat 1%nat 10%nat "ID-1" 900 "car" "rejected"))) /\
  users (snd result) = users approvedStore /\
  loanOffers (snd result) = loanOffers approvedStore /\
  loanPayments (snd result) = loanPayments approvedStore /\
  nextId (snd result) = nextId approvedStore /\
  Forall2 (fun old new =>
             (LoanApplication._id old <> 20%nat -> new = old) /\ sameButStatus old new)
          (loanApplications approvedStore) (loanApplications (snd result)) /\
  findOne (byId LoanApplication._id 20%nat) (loanApplications (snd result))
  = Some (LoanApplication.mk 20%nat 1%nat 10%nat "ID-1" 900 "car" "rejected").
Proof.
  apply (rejecting_changes_only_status lara 20%nat approvedStore
           (LoanApplication.mk 20%nat 1%nat 10%nat "ID-1" 900 "car" "approved"));
    reflexivity.
Defined.

(** ** Registration and login *)

Lemma findOne_None_all {A} (pred : A -> bool) docs d :
  findOne pred docs = None -> In d docs -> pred d = false.
Proof. intros Hnone Hin. exact (find_none pred docs Hnone d Hin). Qed.

(** C7. When some stored user has email E, a registration with email E
    fails with Validation whatever the name, the password and the role,
    and the store is left as it was. *)
Theorem register_taken_email_rejected
    (ext : Externals) (s : Store) (b : RegisterInput) (existing : User.t) :
  In existing (users s) ->
  ri_email b = Some (User.email existing) ->
  errorKind (fst (register ext b s)) = Some Validation /\
  snd (register ext b s) = s.
Proof.
  intros Hin Hemail. unfold register, tryCatch, bind, getStore, reply.
  destruct (falsy (ri_name b) || falsy (ri_email b) || falsy (ri_password b)
            || falsy (ri_role b)); [split; reflexivity|].
  cbn beta iota zeta.
  destruct (findOne (fun u => (User.email u =? orEmpty (ri_email b))%string) (users s))
    eqn:Hfind; [split; reflexivity|].
  apply findOne_None_all with (d := existing) in Hfind; [|assumption].
  rewrite Hemail in Hfind. cbn [orEmpty] in Hfind.
  rewrite String.eqb_refl in Hfind. discriminate.
Qed.

Lemma register_taken_email_rejected_witness :
  errorKind
    (fst (register sampleExternals
            (mkRegisterInput (Some "Mallory") (Some "alice@example.com")
               (Some "secret") (Some "lender"))
            sampleStore)) = Some Validation /\
  snd (register sampleExternals
         (mkRegisterInput (Some "Mallory") (Some "alice@example.com")
            (Some "secret") (Some "lender"))
         sampleStore) = sampleStore.
Proof.
  apply (register_taken_email_rejected sampleExternals sampleStore
           (mkRegisterInput (Some "Mallory") (Some "alice@example.com")
              (Some "secret") (Some "lender"))
           (User.mk 1%nat "Alice" "alice@example.com" "hash:a" "borrower")).
  - simpl. left. reflexivity.
  - reflexivity.
Defined.

Lemma emailAndRole_true email password role u :
  emailAndRole (stringLogin email password role) u = true
  <-> User.email u = email /\ User.role u = role.
Proof.
  unfold emailAndRole. cbn [stringLogin li_email li_role conditionHolds].
  rewrite andb_true_iff, !String.eqb_eq. reflexivity.
Qed.

(** What [login] does with a body of three strings. *)
Lemma login_strings ext email password role s :
  login ext (stringLogin email password role) s
  = match findOne (emailAndRole (stringLogin email password role)) (users s) with
    | None => (mkResponse 400 (ErrorBody "Invalid email or role!"), s)
    | Some user =>
        if bcrypt_compare ext password (User.password user)
        then (mkResponse 200
                (LoginBody "Login successful!"
                   (jwt_sign ext
                      (mkAuthUser (User._id user) (User.email user) (User.role user)))
                   (User.name user) (User.email user) (User.role user)), s)
        else (mkResponse 400 (ErrorBody "Invalid password!"), s)
    end.
Proof.
  unfold stringLogin, login, tryCatch, bind, getStore, reply, ret.
  cbn [li_email li_role li_password castable andb].
  cbn beta iota zeta.
  destruct (findOne (emailAndRole (mkLoginInput (Equals email) (Password password)
                                     (Equals role))) (users s)) as [user|];
    [|reflexivity].
  destruct (bcrypt_compare ext password (User.password user)); reflexivity.
Qed.

(** On a body of three strings: login fails with Validation, and issues no
    token, when no stored user has both the given email and the given role,
    and when the user the query answers fails the password comparison; a
    token is issued only for a stored user with that email and that role
    whose stored hash the password matches.  Login never writes. *)
Lemma login_needs_email_role_and_password
    (ext : Externals) (email password role : string) (s : Store) :
  let b := stringLogin email password role in
  ((forall u, In u (users s) ->
              ~ (User.email u = email /\ User.role u = role)) ->
   errorKind (fst (login ext b s)) = Some Validation /\
   ~ issuesToken (fst (login ext b s))) /\
  (forall user,
      findOne (emailAndRole b) (users s) = Some user ->
      bcrypt_compare ext password (User.password user) = false ->
      errorKind (fst (login ext b s)) = Some Validation /\
      ~ issuesToken (fst (login ext b s))) /\
  (issuesToken (fst (login ext b s)) ->
   exists user,
     In user (users s) /\
     User.email user = email /\
     User.role user = role /\
     bcrypt_compare ext password (User.password user) = true /\
     fst (login ext b s)
     = mkResponse 200
         (LoginBody "Login successful!"
            (jwt_sign ext (mkAuthUser (User._id user) (User.email user) (User.role user)))
            (User.name user) (User.email user) (User.role user))) /\
  snd (login ext b s) = s.
Proof.
  intros b. unfold b. rewrite login_strings.
  destruct (findOne (emailAndRole (stringLogin email password role)) (users s))
    as [user|] eqn:Hfind.
  - destruct (findOne_Some_In _ _ _ Hfind) as [Hin Hmatch].
    apply emailAndRole_true in Hmatch.
    destruct (bcrypt_compare ext password (User.password user)) eqn:Hcmp;
      cbn [negb fst snd].
    + split; [intros Hno; exfalso; exact (Hno user Hin Hmatch)|].
      split; [intros u Hu; inversion Hu; subst; congruence|].
      split; [|reflexivity].
      intros _. exists user. destruct Hmatch as [He Hr].
      repeat split; assumption.
    + split; [intros _; split; [reflexivity | intros []]|].
      split; [intros _ _ _; split; [reflexivity | intros []]|].
      split; [intros [] | reflexivity].
  - cbn [fst snd].
    split; [intros _; split; [reflexivity | intros []]|].
    split; [intros user Hu; discriminate|].
    split; [intros [] | reflexivity].
Qed.

(** C8. A login body that names a stored user by email and role but has no
    password, or a password that is not a string, is answered 500, not
    400: [bcrypt.compare] throws and nothing tested the field before, as
    the presence test of the register route does.  And a body whose email
    is an operator object is answered with a token for a user whose email
    the body does not give. *)
Theorem login_without_password_is_an_internal_error :
  findOne
    (emailAndRole (mkLoginInput (Equals "alice@example.com") NotAString (Equals "borrower")))
    (users sampleStore)
  = Some (User.mk 1%nat "Alice" "alice@example.com" "hash:a" "borrower") /\
  login sampleExternals
    (mkLoginInput (Equals "alice@example.com") NotAString (Equals "borrower"))
    sampleStore
  = (mkResponse 500 (ErrorBody "Server error: Illegal arguments"), sampleStore) /\
  errorKind
    (fst (login sampleExternals
            (mkLoginInput (Equals "alice@example.com") NotAString (Equals "borrower"))
            sampleStore))
  = Some Internal /\
  fst (login sampleExternals
         (mkLoginInput (Operator (fun _ => true)) (Password "a") (Equals "borrower"))
         sampleStore)
  = mkResponse 200
      (LoginBody "Login successful!" "token:alice@example.com:borrower"
         "Alice" "alice@example.com" "borrower").
Proof. repeat split. Qed.

(** ** What the admin views show of a user *)

Lemma excludePassword_no_password us :
  Forall (fun v => UserView.password v = None) (map excludePassword us).
Proof. induction us; constructor; auto. Qed.

Lemma excludePassword_filter_borrowers us :
  map excludePassword (filter (fun u => (User.role u =? "borrower")%string) us)
  = filter (fun v => (UserView.role v =? "borrower")%string) (map excludePassword us).
Proof.
  induction us as [|u us IH]; simpl; [reflexivity|].
  destruct (User.role u =? "borrower")%string; simpl; rewrite IH; reflexivity.
Qed.

Lemma excludePassword_findOne id role us1 us2 :
  map excludePassword us1 = map excludePassword us2 ->
  option_map excludePassword
    (option_map (User.setRole role) (findOne (byId User._id id) us1))
  = option_map excludePassword
      (option_map (User.setRole role) (findOne (byId User._id id) us2)).
Proof.
  unfold findOne, byId. revert us2.
  induction us1 as [|u1 us1 IH]; intros [|u2 us2] Heq; try discriminate;
    [reflexivity|].
  simpl in Heq. injection Heq as Hid Hname Hemail Hrole Hrest.
  simpl. rewrite Hid. destruct (User._id u2 =? id)%nat.
  - simpl. unfold excludePassword. simpl. rewrite Hid, Hname, Hemail. reflexivity.
  - apply IH, Hrest.
Qed.

Lemma excludePassword_updateOne id role us1 us2 :
  map excludePassword us1 = map excludePassword us2 ->
  map excludePassword (updateOne (byId User._id id) (User.setRole role) us1)
  = map excludePassword (updateOne (byId User._id id) (User.setRole role) us2).
Proof.
  unfold byId. revert us2.
  induction us1 as [|u1 us1 IH]; intros [|u2 us2] Heq; try discriminate;
    [reflexivity|].
  simpl in Heq. injection Heq as Hid Hname Hemail Hrole Hrest.
  simpl. rewrite Hid. destruct (User._id u2 =? id)%nat; simpl.
  - f_equal; [|exact Hrest].
    unfold excludePassword. simpl. rewrite Hid, Hname, Hemail. reflexivity.
  - f_equal; [|exact (IH us2 Hrest)].
    unfold excludePassword. rewrite Hid, Hname, Hemail, Hrole. reflexivity.
Qed.

Lemma listUsers_no_password c s : noPasswordField (fst (listUsers c s)).
Proof.
  unfold noPasswordField, listUsers. route_cases; try constructor.
  apply excludePassword_no_password.
Qed.

Lemma listBorrowersWithDerivedData_no_password c s :
  noPasswordField (fst (listBorrowersWithDerivedData c s)).
Proof.
  unfold noPasswordField, listBorrowersWithDerivedData. route_cases; try constructor.
  cbn [body userObjects]. rewrite map_map. cbn [bd_borrower]. rewrite map_id.
  apply excludePassword_no_password.
Qed.

Lemma setUserRole_no_password c id role s :
  noPasswordField (fst (setUserRole c id role s)).
Proof.
  unfold noPasswordField, setUserRole.
  destruct c as [| |user]; try constructor.
  unfold authenticate, requireRole.
  destruct (negb (au_role user =? "admin")%string); [constructor|].
  unfold tryCatch, bind, getStore, reply, modify, findOneAndUpdate.
  cbn beta iota zeta. cbn [fst body userObjects].
  destruct (findOne (byId User._id id) (users s)); repeat constructor.
Qed.

Lemma listUsers_same_view c s1 s2 :
  sameUpToPasswords s1 s2 -> fst (listUsers c s1) = fst (listUsers c s2).
Proof.
  intros (Husers & _). unfold listUsers.
  destruct c as [| |user]; try reflexivity.
  unfold authenticate, requireRole.
  destruct (negb (au_role user =? "admin")%string); [reflexivity|].
  unfold tryCatch, bind, getStore, reply. cbn. rewrite Husers. reflexivity.
Qed.

Lemma listBorrowersWithDerivedData_same_view c s1 s2 :
  sameUpToPasswords s1 s2 ->
  fst (listBorrowersWithDerivedData c s1) = fst (listBorrowersWithDerivedData c s2).
Proof.
  intros (Husers & Hoffers & Happs & Hpays & _). unfold listBorrowersWithDerivedData.
  destruct c as [| |user]; try reflexivity.
  unfold authenticate, requireRole.
  destruct (negb (au_role user =? "admin")%string); [reflexivity|].
  unfold tryCatch, bind, getStore, reply. cbn beta iota zeta. cbn [fst].
  unfold populateLoanOffer, populateApplication.
  rewrite !excludePassword_filter_borrowers, Husers, Hoffers, Happs, Hpays.
  reflexivity.
Qed.

Lemma setUserRole_same_view c id role s1 s2 :
  sameUpToPasswords s1 s2 ->
  fst (setUserRole c id role s1) = fst (setUserRole c id role s2) /\
  sameUpToPasswords (snd (setUserRole c id role s1)) (snd (setUserRole c id role s2)).
Proof.
  intros Hsame. pose proof Hsame as (Husers & Hoffers & Happs & Hpays & Hnext).
  unfold setUserRole.
  destruct c as [| |user]; try (split; [reflexivity | exact Hsame]).
  unfold authenticate, requireRole.
  destruct (negb (au_role user =? "admin")%string);
    [split; [reflexivity | exact Hsame]|].
  unfold tryCatch, bind, getStore, reply, modify, findOneAndUpdate.
  cbn beta iota zeta. cbn [fst snd]. split.
  - rewrite (excludePassword_findOne id role _ _ Husers). reflexivity.
  - unfold sameUpToPasswords. cbn [users loanOffers loanApplications loanPayments
                                   nextId setUsers].
    rewrite (excludePassword_updateOne id role _ _ Husers). auto.
Qed.

(** C10. The user objects answered by the three admin routes carry no
    password field, and the answers are the same for two stores that
    differ only in the stored password hashes (after a role change the two
    stores still differ in nothing else). *)
Theorem admin_views_hide_passwords (c : Credentials) (id : ObjectId) (role : string) :
  (forall s,
      noPasswordField (fst (listUsers c s)) /\
      noPasswordField (fst (listBorrowersWithDerivedData c s)) /\
      noPasswordField (fst (setUserRole c id role s))) /\
  (forall s1 s2,
      sameUpToPasswords s1 s2 ->
      fst (listUsers c s1) = fst (listUsers c s2) /\
      fst (listBorrowersWithDerivedData c s1) = fst (listBorrowersWithDerivedData c s2) /\
      fst (setUserRole c id role s1) = fst (setUserRole c id role s2) /\
      sameUpToPasswords (snd (setUserRole c id role s1))
                        (snd (setUserRole c id role s2))).
Proof.
  split.
  - intros s. split; [apply listUsers_no_password|].
    split; [apply listBorrowersWithDerivedData_no_password|].
    apply setUserRole_no_password.
  - intros s1 s2 Hsame. split; [apply listUsers_same_view, Hsame|].
    split; [apply listBorrowersWithDerivedData_same_view, Hsame|].
    apply setUserRole_same_view, Hsame.
Qed.

Lemma admin_views_hide_passwords_witness :
  fst (listUsers (Token root) sampleStore)
  = fst (listUsers (Token root) sampleStoreRehashed) /\
  fst (listBorrowersWithDerivedData (Token root) sampleStore)
  = fst (listBorrowersWithDerivedData (Token root) sampleStoreRehashed) /\
  fst (setUserRole (Token root) 2%nat "lender" sampleStore)
  = fst (setUserRole (Token root) 2%nat "lender" sampleStoreRehashed) /\
  sameUpToPasswords (snd (setUserRole (Token root) 2%nat "lender" sampleStore))
                    (snd (setUserRole (Token root) 2%nat "lender" sampleStoreRehashed)).
Proof.
  apply (proj2 (admin_views_hide_passwords (Token root) 2%nat "lender")
           sampleStore sampleStoreRehashed).
  repeat split.
Defined.

(** * Further properties of the routes *)

(** ** Access policy *)

Lemma authenticate_refuses c next s :
  isToken c = false ->
  errorKind (fst (authenticate c next s)) = Some Unauthorized /\
  snd (authenticate c next s) = s.
Proof. destruct c; [split; reflexivity | split; reflexivity | discriminate]. Qed.

Lemma requireRole_forbids r user next s :
  au_role user <> r ->
  errorKind (fst (requireRole r user next s)) = Some Forbidden /\
  snd (requireRole r user next s) = s.
Proof.
  intros Hrole. unfold requireRole.
  destruct (String.eqb_spec (au_role user) r) as [Heq|_]; [contradiction|].
  split; reflexivity.
Qed.

(** X1. A request to a guarded route without a token, or with a token that
    does not verify, is answered 401 before anything is written. *)
Theorem missing_or_invalid_token_is_unauthorized
    (ext : Externals) (req : Request) (c : Credentials) (s : Store) :
  credentialsOf req = Some c ->
  isToken c = false ->
  errorKind (fst (handle ext req s)) = Some Unauthorized /\
  snd (handle ext req s) = s.
Proof.
  intros Hc Htoken.
  destruct req; simpl in Hc; try discriminate; injection Hc as ->;
    apply authenticate_refuses, Htoken.
Qed.

Lemma missing_or_invalid_token_is_unauthorized_witness :
  errorKind
    (fst (handle sampleExternals (DeleteUser InvalidToken (Canonical 1%nat)) sampleStore))
  = Some Unauthorized /\
  snd (handle sampleExternals (DeleteUser InvalidToken (Canonical 1%nat)) sampleStore) = sampleStore.
Proof.
  apply (missing_or_invalid_token_is_unauthorized sampleExternals
           (DeleteUser InvalidToken (Canonical 1%nat)) InvalidToken sampleStore);
    reflexivity.
Defined.

(** X2. A request whose token carries another role than the one its route
    asks for is answered 403 before anything is written. *)
Theorem wrong_role_is_forbidden
    (ext : Externals) (req : Request) (user : AuthUser) (r : string) (s : Store) :
  credentialsOf req = Some (Token user) ->
  requiredRole req = Some r ->
  au_role user <> r ->
  errorKind (fst (handle ext req s)) = Some Forbidden /\
  snd (handle ext req s) = s.
Proof.
  intros Hc Hr Hrole.
  destruct req; simpl in Hc, Hr; try discriminate;
    injection Hc as ->; injection Hr as <-;
    apply requireRole_forbids, Hrole.
Qed.

Lemma wrong_role_is_forbidden_witness :
  errorKind
    (fst (handle sampleExternals
            (CreateOffer (Token alice) (mkOfferInput (Some 100) (Some 5) (Some 12)))
            sampleStore))
  = Some Forbidden /\
  snd (handle sampleExternals
         (CreateOffer (Token alice) (mkOfferInput (Some 100) (Some 5) (Some 12)))
         sampleStore) = sampleStore.
Proof.
  apply (wrong_role_is_forbidden sampleExternals
           (CreateOffer (Token alice) (mkOfferInput (Some 100) (Some 5) (Some 12)))
           alice "lender" sampleStore);
    [reflexivity | reflexivity | discriminate].
Defined.

(** ** Every request is a sequence of writes *)

Lemma effects_one s s' : effect s s' -> effects s s'.
Proof. intros H. eapply effects_then; [apply effects_none | exact H]. Qed.

Lemma register_effects ext b s : effects s (snd (register ext b s)).
Proof.
  unfold register, saveUser. route_cases; try apply effects_none.
  apply effects_one. apply effect_insert_user. assumption.
Qed.

Lemma createOffer_effects c input s : effects s (snd (createOffer c input s)).
Proof.
  unfold createOffer, saveLoanOffer. route_cases; try apply effects_none.
  apply effects_one. apply effect_insert_offer.
Qed.

Lemma createApplication_effects c input s :
  effects s (snd (createApplication c input s)).
Proof.
  unfold createApplication, saveLoanApplication. route_cases; try apply effects_none.
  apply effects_one. apply effect_insert_application.
Qed.

Lemma recordPayment_effects c applicationId amount now s :
  effects s (snd (recordPayment c applicationId amount now s)).
Proof.
  unfold recordPayment, findOneAndUpdate. route_cases; try apply effects_none.
  apply effects_one. apply effect_pay.
Qed.

Lemma deleteUser_effects c id s : effects s (snd (deleteUser c id s)).
Proof.
  unfold deleteUser. route_cases; try apply effects_none.
  apply effects_one. apply effect_delete_user.
Qed.

Lemma setUserRole_effects c id role s : effects s (snd (setUserRole c id role s)).
Proof.
  unfold setUserRole, findOneAndUpdate. route_cases; try apply effects_none.
  apply effects_one. apply effect_role.
Qed.

Lemma setApplicationStatus_effects c id status s :
  effects s (snd (setApplicationStatus c id status s)).
Proof.
  unfold setApplicationStatus, createLoanPayment, findOneAndUpdate, populateLoanOffer.
  route_cases; try apply effects_none.
  - eapply effects_then; [apply effects_one, effect_deactivate | apply effect_status].
  - eapply effects_then; [|apply effect_status].
    eapply effects_then; [apply effects_one, effect_deactivate|].
    apply effect_insert_payment; [assumption|].
    cbn [loanApplications setLoanOffers].
    destruct (findOne (byId LoanApplication._id id) (loanApplications s));
      [discriminate | discriminate].
  - apply effects_one, effect_status.
Qed.

Lemma handle_effects ext req s : effects s (snd (handle ext req s)).
Proof.
  destruct req; cbn [handle].
  - apply register_effects.
  - rewrite login_store. apply effects_none.
  - apply createOffer_effects.
  - apply setApplicationStatus_effects.
  - apply createApplication_effects.
  - apply recordPayment_effects.
  - rewrite listUsers_store. apply effects_none.
  - rewrite listBorrowersWithDerivedData_store. apply effects_none.
  - apply deleteUser_effects.
  - apply setUserRole_effects.
Qed.

(** ** Lists of documents with distinct keys *)

Section KeyFacts.
Context {A K : Type} (key : A -> K).
Implicit Types (pred : A -> bool) (upd : A -> A) (docs : list A).

Lemma map_key_updateOne pred upd docs :
  (forall d, key (upd d) = key d) ->
  map key (updateOne pred upd docs) = map key docs.
Proof.
  intros Hkey. induction docs as [|d rest IH]; simpl; [reflexivity|].
  destruct (pred d); simpl; [rewrite Hkey | rewrite IH]; reflexivity.
Qed.

Lemma In_map_key_deleteOne pred docs k :
  In k (map key (deleteOne pred docs)) -> In k (map key docs).
Proof.
  induction docs as [|d rest IH]; simpl; [tauto|].
  destruct (pred d); simpl; tauto.
Qed.

Lemma NoDup_map_key_deleteOne pred docs :
  NoDup (map key docs) -> NoDup (map key (deleteOne pred docs)).
Proof.
  induction docs as [|d rest IH]; simpl; intros Hnd; [constructor|].
  inversion Hnd as [|k ks Hnotin Hrest]; subst.
  destruct (pred d); [assumption|]. simpl. constructor; [|auto].
  intros Hin. apply Hnotin. eapply In_map_key_deleteOne, Hin.
Qed.

Lemma NoDup_map_key_snoc docs d :
  NoDup (map key docs) -> ~ In (key d) (map key docs) ->
  NoDup (map key (docs ++ [d])).
Proof.
  intros Hnd Hnotin. rewrite map_app. simpl.
  apply NoDup_app; [assumption | repeat constructor; tauto |].
  intros k Hk [<-|[]]. contradiction.
Qed.
End KeyFacts.

Lemma findOne_byId_None_not_In {A} (key : A -> ObjectId) k docs :
  findOne (byId key k) docs = None <-> ~ In k (map key docs).
Proof.
  unfold findOne, byId. induction docs as [|d rest IH]; simpl; [tauto|].
  destruct (Nat.eqb_spec (key d) k) as [->|Hne].
  - split; [discriminate | tauto].
  - rewrite IH. tauto.
Qed.

Lemma findOne_email_None_not_In email us :
  findOne (fun u => (User.email u =? email)%string) us = None ->
  ~ In email (map User.email us).
Proof.
  unfold findOne. induction us as [|u rest IH]; simpl; [tauto|].
  destruct (String.eqb_spec (User.email u) email) as [->|Hne]; [discriminate|].
  intros Hnone [Heq|Hin]; [contradiction | exact (IH Hnone Hin)].
Qed.

Lemma below_not_In {A} (key : A -> ObjectId) n docs :
  Forall (fun d => (key d < n)%nat) docs -> ~ In n (map key docs).
Proof.
  intros Hall Hin. apply in_map_iff in Hin as (d & Hd & Hin).
  rewrite Forall_forall in Hall. specialize (Hall d Hin). lia.
Qed.

Lemma below_weaken {A} (key : A -> ObjectId) n docs :
  Forall (fun d => (key d < n)%nat) docs ->
  Forall (fun d => (key d < S n)%nat) docs.
Proof. apply Forall_impl. intros d Hd. lia. Qed.

Lemma below_snoc {A} (key : A -> ObjectId) n docs d :
  Forall (fun d => (key d < n)%nat) docs -> key d = n ->
  Forall (fun d => (key d < S n)%nat) (docs ++ [d]).
Proof.
  intros Hall Hd. apply Forall_app. split; [apply below_weaken, Hall|].
  constructor; [lia | constructor].
Qed.

(** ** The store invariants *)

Lemma findOne_app_found {A} (pred : A -> bool) docs more :
  findOne pred docs <> None -> findOne pred (docs ++ more) <> None.
Proof.
  unfold findOne. induction docs as [|d rest IH]; simpl; [congruence|].
  destruct (pred d); [discriminate | exact IH].
Qed.

Lemma effect_wellFormed s s' : wellFormed s -> effect s s' -> wellFormed s'.
Proof.
  intros [Hub Hob Hab Hpb Huu Hou Hau Hpu Hem Hone Hrec] Heff.
  destruct Heff; constructor;
    cbn [users loanOffers loanApplications loanPayments nextId bumpNextId
         setUsers setLoanOffers setLoanApplications setLoanPayments];
    unfold uniqueIds in *;
    try assumption;
    try (apply below_weaken; assumption);
    try (apply below_snoc; [assumption | reflexivity]);
    try (apply updateOne_Forall; [intros ? Hd; exact Hd | assumption]);
    try (apply deleteOne_Forall; assumption);
    try (rewrite map_key_updateOne by reflexivity; assumption);
    try (apply NoDup_map_key_deleteOne; assumption);
    try (apply NoDup_map_key_snoc; [assumption | apply below_not_In; assumption]).
  - apply NoDup_map_key_snoc; [assumption|].
    apply findOne_email_None_not_In. assumption.
  - eapply Forall_impl; [|exact Hrec].
    intros p Hp. apply findOne_app_found, Hp.
  - apply NoDup_map_key_snoc; [assumption|].
    apply findOne_byId_None_not_In. assumption.
  - apply Forall_app. split; [assumption|].
    constructor; [assumption | constructor].
  - eapply Forall_impl; [|exact Hrec].
    intros p Hp Hnone. apply Hp.
    apply findOne_byId_None_not_In. apply findOne_byId_None_not_In in Hnone.
    rewrite map_key_updateOne in Hnone by reflexivity. exact Hnone.
Qed.

Lemma effects_wellFormed s s' : wellFormed s -> effects s s' -> wellFormed s'.
Proof.
  intros Hwf. induction 1 as [|s1 s2 _ IH Hstep]; [assumption|].
  eapply effect_wellFormed; eassumption.
Qed.

Lemma emptyStore_wellFormed : wellFormed emptyStore.
Proof. constructor; simpl; constructor. Qed.

Lemma reachable_wellFormed ext s : reachable ext s -> wellFormed s.
Proof.
  induction 1 as [|req s _ IH]; [apply emptyStore_wellFormed|].
  eapply effects_wellFormed; [exact IH | apply handle_effects].
Qed.

Lemma reachable_serve ext reqs s :
  reachable ext s -> reachable ext (serve ext reqs s).
Proof.
  revert s. induction reqs as [|req reqs IH]; intros s Hs; [exact Hs|].
  rewrite serve_cons. apply IH. constructor. exact Hs.
Qed.

Example liveStore_contents :
  users liveStore
  = [ User.mk 0%nat "Lara" "lara@example.com" "hash:l" "lender";
      User.mk 1%nat "Alice" "alice@example.com" "hash:a" "borrower";
      User.mk 2%nat "Root" "root@example.com" "hash:r" "admin";
      User.mk 3%nat "Bob" "bob@example.com" "hash:b" "borrower" ] /\
  loanOffers liveStore = [LoanOffer.mk 4%nat 0%nat 5000 12 24 false] /\
  loanApplications liveStore
  = [LoanApplication.mk 5%nat 1%nat 4%nat "ID-1" 900 "car" "approved"] /\
  loanPayments liveStore
  = [LoanPayment.mk 6%nat 5%nat 100 [PaymentEntry.mk 7 100]] /\
  nextId liveStore = 7%nat.
Proof. repeat split. Qed.

Lemma liveStore_reachable : reachable sampleExternals liveStore.
Proof. apply reachable_serve, reachable_empty. Qed.

Lemma pendingStore_reachable : reachable sampleExternals pendingStore.
Proof. apply reachable_serve, reachable_empty. Qed.

Lemma NoDup_map_injective {A K} (key : A -> K) docs x y :
  NoDup (map key docs) -> In x docs -> In y docs -> key x = key y -> x = y.
Proof.
  induction docs as [|d rest IH]; simpl; intros Hnd Hx Hy Heq; [contradiction|].
  inversion Hnd as [|k ks Hnotin Hrest]; subst.
  destruct Hx as [->|Hx], Hy as [->|Hy]; try reflexivity.
  - exfalso. apply Hnotin. rewrite Heq. apply in_map, Hy.
  - exfalso. apply Hnotin. rewrite <- Heq. apply in_map, Hx.
  - apply IH; assumption.
Qed.

(** X3. In every store the service can reach, two stored users never share
    an email. *)
Theorem stored_emails_are_unique
    (ext : Externals) (s : Store) (u1 u2 : User.t) :
  reachable ext s ->
  In u1 (users s) -> In u2 (users s) ->
  User.email u1 = User.email u2 -> u1 = u2.
Proof.
  intros Hreach. apply NoDup_map_injective.
  apply (wf_emails_unique _ (reachable_wellFormed ext s Hreach)).
Qed.

Lemma stored_emails_are_unique_witness :
  User.mk 1%nat "Alice" "alice@example.com" "hash:a" "borrower"
  = User.mk 1%nat "Alice" "alice@example.com" "hash:a" "borrower".
Proof.
  apply (stored_emails_are_unique sampleExternals liveStore).
  - exact liveStore_reachable.
  - simpl. right. left. reflexivity.
  - simpl. right. left. reflexivity.
  - reflexivity.
Defined.

(** X4. After any sequence of requests served one after the other from
    the empty database, each handler running to its end before the next
    starts, an application has at most one payment record, and every
    payment record belongs to a stored application.  (Approvals whose
    awaited queries interleave are no such sequence.) *)
Theorem one_payment_record_per_application (ext : Externals) (reqs : list Request) :
  let s := serve ext reqs emptyStore in
  (forall p1 p2,
      In p1 (loanPayments s) -> In p2 (loanPayments s) ->
      LoanPayment.applicationId p1 = LoanPayment.applicationId p2 -> p1 = p2) /\
  (forall p,
      In p (loanPayments s) ->
      exists a,
        In a (loanApplications s) /\
        LoanApplication._id a = LoanPayment.applicationId p).
Proof.
  intros s.
  pose proof (reachable_wellFormed ext s (reachable_serve ext reqs _ (reachable_empty ext)))
    as Hwf.
  split.
  - intros p1 p2. apply NoDup_map_injective. apply (wf_one_record _ Hwf).
  - intros p Hin.
    pose proof (wf_record_application _ Hwf) as Hrec.
    rewrite Forall_forall in Hrec. specialize (Hrec p Hin).
    destruct (findOne (byId LoanApplication._id (LoanPayment.applicationId p))
                (loanApplications s)) as [a|] eqn:Hfind; [|contradiction].
    apply findOne_Some_In in Hfind as [Ha Hid].
    exists a. split; [exact Ha | apply byId_true, Hid].
Qed.

Lemma one_payment_record_per_application_witness :
  let twice :=
    serve sampleExternals
      (liveRequests ++ [SetApplicationStatus (Token laraToken) 5%nat "approved"])%list
      emptyStore in
  (forall p1 p2,
      In p1 (loanPayments twice) -> In p2 (loanPayments twice) ->
      LoanPayment.applicationId p1 = LoanPayment.applicationId p2 -> p1 = p2) /\
  (exists a,
      In a (loanApplications twice) /\
      LoanApplication._id a = 5%nat).
Proof.
  intros twice. split.
  - apply (proj1 (one_payment_record_per_application sampleExternals
                    (liveRequests
                     ++ [SetApplicationStatus (Token laraToken) 5%nat "approved"])%list)).
  - apply (proj2 (one_payment_record_per_application sampleExternals
                    (liveRequests
                     ++ [SetApplicationStatus (Token laraToken) 5%nat "approved"])%list)
             (LoanPayment.mk 6%nat 5%nat 100 [PaymentEntry.mk 7 100])).
    simpl. left. reflexivity.
Defined.

(** ** What the routes never undo *)

Section Growth.
Context {A : Type} (R : A -> A -> Prop).
Hypothesis R_refl : forall d, R d d.
Hypothesis R_trans : forall a b c, R a b -> R b c -> R a c.

Lemma Forall2_same (docs : list A) : Forall2 R docs docs.
Proof. induction docs; constructor; auto. Qed.

Lemma Forall2_chain (l1 l2 l3 : list A) :
  Forall2 R l1 l2 -> Forall2 R l2 l3 -> Forall2 R l1 l3.
Proof.
  intros H12. revert l3. induction H12 as [|a b l1 l2 Hab _ IH]; intros l3 H23.
  - inversion H23. constructor.
  - inversion H23 as [|b' c l2' l3' Hbc Hrest]; subst.
    constructor; [eapply R_trans; eassumption | apply IH, Hrest].
Qed.

Lemma grownFrom_refl (docs : list A) : grownFrom R docs docs.
Proof.
  exists docs, []. split; [symmetry; apply app_nil_r | apply Forall2_same].
Qed.

Lemma grownFrom_snoc (docs : list A) d : grownFrom R docs (docs ++ [d]).
Proof. exists docs, [d]. split; [reflexivity | apply Forall2_same]. Qed.

Lemma grownFrom_updateOne pred upd (docs : list A) :
  (forall d, R d (upd d)) -> grownFrom R docs (updateOne pred upd docs).
Proof.
  intros Hupd. exists (updateOne pred upd docs), [].
  split; [symmetry; apply app_nil_r|].
  eapply Forall2_impl; [|apply updateOne_Forall2].
  intros d d' [->|[_ ->]]; auto.
Qed.

Lemma grownFrom_trans (l1 l2 l3 : list A) :
  grownFrom R l1 l2 -> grownFrom R l2 l3 -> grownFrom R l1 l3.
Proof.
  intros (kept1 & added1 & -> & H1) (kept2 & added2 & -> & H2).
  apply Forall2_app_inv_l in H2 as (k2a & k2b & Ha & Hb & ->).
  exists k2a, (k2b ++ added2)%list.
  split; [symmetry; apply app_assoc | eapply Forall2_chain; eassumption].
Qed.
End Growth.

Lemma sameTerms_refl o : sameTerms o o.
Proof. repeat split. auto. Qed.

Lemma sameTerms_trans a b c : sameTerms a b -> sameTerms b c -> sameTerms a c.
Proof.
  unfold sameTerms. intros (? & ? & ? & ? & ? & ?) (? & ? & ? & ? & ? & ?).
  repeat split; try congruence. auto.
Qed.

Lemma sameButStatus_trans a b c :
  sameButStatus a b -> sameButStatus b c -> sameButStatus a c.
Proof.
  unfold sameButStatus. intros (? & ? & ? & ? & ? & ?) (? & ? & ? & ? & ? & ?).
  repeat split; congruence.
Qed.

Lemma extendsRecord_refl p : extendsRecord p p.
Proof.
  repeat split. exists []. rewrite app_nil_r. split; reflexivity.
Qed.

Lemma extendsRecord_trans a b c :
  extendsRecord a b -> extendsRecord b c -> extendsRecord a c.
Proof.
  intros (Hid1 & Happ1 & add1 & Hp1 & Ha1) (Hid2 & Happ2 & add2 & Hp2 & Ha2).
  split; [congruence|]. split; [congruence|].
  exists (add1 ++ add2)%list. split.
  - rewrite Hp2, Hp1, app_assoc. reflexivity.
  - rewrite Ha2, Ha1, map_app, fold_left_app. reflexivity.
Qed.

Lemma extendsRecord_incAndPush now amount p :
  extendsRecord p (LoanPayment.incAndPush now amount p).
Proof.
  split; [reflexivity|]. split; [reflexivity|].
  exists [PaymentEntry.mk now amount]. split; reflexivity.
Qed.

Lemma effect_growth s s' :
  effect s s' ->
  grownFrom sameTerms (loanOffers s) (loanOffers s') /\
  grownFrom sameButStatus (loanApplications s) (loanApplications s') /\
  grownFrom extendsRecord (loanPayments s) (loanPayments s').
Proof.
  destruct 1;
    cbn [loanOffers loanApplications loanPayments bumpNextId setUsers
         setLoanOffers setLoanApplications setLoanPayments];
    repeat split;
    try (apply grownFrom_refl;
         first [exact sameTerms_refl | exact sameButStatus_refl
               | exact extendsRecord_refl]);
    try (apply grownFrom_snoc;
         first [exact sameTerms_refl | exact sameButStatus_refl
               | exact extendsRecord_refl]).
  - apply grownFrom_updateOne; [exact sameTerms_refl|].
    intros d. repeat split.
  - apply grownFrom_updateOne; [exact sameButStatus_refl|].
    intros d. apply sameButStatus_setStatus.
  - apply grownFrom_updateOne; [exact extendsRecord_refl|].
    intros d. apply extendsRecord_incAndPush.
Qed.

Lemma effects_growth s s' :
  effects s s' ->
  grownFrom sameTerms (loanOffers s) (loanOffers s') /\
  grownFrom sameButStatus (loanApplications s) (loanApplications s') /\
  grownFrom extendsRecord (loanPayments s) (loanPayments s').
Proof.
  induction 1 as [|s1 s2 _ (IHo & IHa & IHp) Hstep].
  - split; [apply grownFrom_refl, sameTerms_refl|].
    split; [apply grownFrom_refl, sameButStatus_refl
           | apply grownFrom_refl, extendsRecord_refl].
  - destruct (effect_growth _ _ Hstep) as (Ho & Ha & Hp).
    split; [eapply grownFrom_trans; eauto using sameTerms_trans|].
    split; [eapply grownFrom_trans; eauto using sameButStatus_trans
           | eapply grownFrom_trans; eauto using extendsRecord_trans].
Qed.

Lemma serve_effects ext reqs s : effects s (serve ext reqs s).
Proof.
  revert s. induction reqs as [|req reqs IH]; intros s; [apply effects_none|].
  rewrite serve_cons.
  assert (Hjoin : forall s1 s2 s3, effects s1 s2 -> effects s2 s3 -> effects s1 s3).
  { intros s1 s2 s3 H12 H23. induction H23; [assumption|].
    eapply effects_then; eauto. }
  eapply Hjoin; [apply handle_effects | apply IH].
Qed.

(** X5. Whatever requests are served, every offer of the store is still
    there, at its place, with its id, lender, amount, rate and term, and an
    offer that was inactive is still inactive. *)
Theorem offers_are_kept_and_never_reactivated
    (ext : Externals) (reqs : list Request) (s : Store) :
  grownFrom sameTerms (loanOffers s) (loanOffers (serve ext reqs s)).
Proof. apply (effects_growth _ _ (serve_effects ext reqs s)). Qed.

(** X6. Whatever requests are served, every application of the store is
    still there, at its place, and differs from its former self in the
    status field at most. *)
Theorem applications_change_in_status_only
    (ext : Externals) (reqs : list Request) (s : Store) :
  grownFrom sameButStatus (loanApplications s) (loanApplications (serve ext reqs s)).
Proof. apply (effects_growth _ _ (serve_effects ext reqs s)). Qed.

(** X7. Whatever requests are served, every payment record of the store is
    still there, at its place, for the same application; its former
    payments are a prefix of its payments, and amountPaid is the former
    amountPaid with the amounts of the added entries added to it one after
    the other, as doubles. *)
Theorem payment_records_are_append_only
    (ext : Externals) (reqs : list Request) (s : Store) :
  grownFrom extendsRecord (loanPayments s) (loanPayments (serve ext reqs s)).
Proof. apply (effects_growth _ _ (serve_effects ext reqs s)). Qed.

(** ** Registration *)

Lemma findOne_None_intro {A} (pred : A -> bool) docs :
  (forall d, In d docs -> pred d = false) -> findOne pred docs = None.
Proof.
  unfold findOne. induction docs as [|d rest IH]; simpl; intros Hall; [reflexivity|].
  rewrite (Hall d (or_introl eq_refl)). apply IH. intros x Hx. apply Hall. now right.
Qed.

Lemma falsy_Some v : v <> EmptyString -> falsy (Some v) = false.
Proof. intros Hv. simpl. apply String.eqb_neq, Hv. Qed.

Lemma email_not_taken email us :
  (forall u, In u us -> User.email u <> email) ->
  findOne (fun u => (User.email u =? email)%string) us = None.
Proof.
  intros Hfree. apply findOne_None_intro. intros u Hu.
  apply String.eqb_neq, Hfree, Hu.
Qed.

(** What [register] does once the three checks before the save pass. *)
Lemma register_past_checks ext name email password role s :
  name <> EmptyString -> email <> EmptyString -> password <> EmptyString ->
  role <> EmptyString ->
  (forall u, In u (users s) -> User.email u <> email) ->
  register ext (mkRegisterInput (Some name) (Some email) (Some password) (Some role)) s
  = if (bcrypt_hash ext password =? EmptyString)%string
       || negb (inEnum roleEnum role)
    then (mkResponse 500 (ErrorBody "Server error: User validation failed"), s)
    else (mkResponse 201 (MessageBody "User registered successfully!"),
          bumpNextId
            (setUsers
               (users s
                ++ [User.mk (nextId s) name email (bcrypt_hash ext password) role])
               s)).
Proof.
  intros Hname Hemail Hpassword Hrole Hfree.
  unfold register, saveUser, tryCatch, bind, getStore, reply, throw, modify.
  cbn [ri_name ri_email ri_password ri_role orEmpty].
  rewrite !falsy_Some by assumption. cbn [orb]. cbn beta iota zeta.
  rewrite (email_not_taken email (users s) Hfree).
  apply String.eqb_neq in Hname, Hemail. rewrite Hname, Hemail. cbn [orb].
  destruct ((bcrypt_hash ext password =? EmptyString)%string
            || negb (inEnum roleEnum role)); cbn beta iota zeta.
  - reflexivity.
  - rewrite (email_not_taken email (users s) Hfree). reflexivity.
Qed.

(** X8. A registration with four non-empty fields, a role of the schema
    and an email no stored user has is answered 201 and appends the user
    with the hash of the password; a login with the same email, password
    and role is then answered 200 with a token for that user, provided
    bcrypt accepts a password against its own hash. *)
Theorem registered_user_can_log_in
    (ext : Externals) (name email password role : string) (s : Store) :
  name <> EmptyString -> email <> EmptyString -> password <> EmptyString ->
  inEnum roleEnum role = true ->
  bcrypt_hash ext password <> EmptyString ->
  bcrypt_compare ext password (bcrypt_hash ext password) = true ->
  (forall u, In u (users s) -> User.email u <> email) ->
  let registered :=
    register ext
      (mkRegisterInput (Some name) (Some email) (Some password) (Some role)) s in
  let newUser := User.mk (nextId s) name email (bcrypt_hash ext password) role in
  fst registered = mkResponse 201 (MessageBody "User registered successfully!") /\
  users (snd registered) = (users s ++ [newUser])%list /\
  fst (login ext (stringLogin email password role) (snd registered))
  = mkResponse 200
      (LoginBody "Login successful!"
         (jwt_sign ext (mkAuthUser (nextId s) email role)) name email role).
Proof.
  intros Hname Hemail Hpassword Henum Hhash Hcompare Hfree registered newUser.
  assert (Hrole : role <> EmptyString).
  { intros ->. discriminate Henum. }
  unfold registered, newUser. clear registered newUser.
  rewrite (register_past_checks ext name email password role s) by assumption.
  apply String.eqb_neq in Hhash. rewrite Hhash, Henum. cbn [orb negb fst snd].
  split; [reflexivity|]. split; [reflexivity|].
  set (newUser := User.mk (nextId s) name email (bcrypt_hash ext password) role).
  rewrite login_strings. cbn [users bumpNextId setUsers].
  rewrite (findOne_app_last (emailAndRole (stringLogin email password role))
             (users s) newUser).
  - unfold newUser. cbn [User.password User._id User.name User.email User.role].
    rewrite Hcompare. reflexivity.
  - apply findOne_None_intro. intros u Hu. unfold emailAndRole.
    cbn [stringLogin li_email li_role conditionHolds].
    pose proof (proj2 (String.eqb_neq _ _) (Hfree u Hu)) as Hne.
    rewrite Hne. reflexivity.
  - apply emailAndRole_true. split; reflexivity.
Qed.

Lemma registered_user_can_log_in_witness :
  let registered :=
    register sampleExternals
      (mkRegisterInput (Some "Carol") (Some "carol@example.com") (Some "c")
         (Some "lender")) liveStore in
  fst registered = mkResponse 201 (MessageBody "User registered successfully!") /\
  users (snd registered)
  = (users liveStore
     ++ [User.mk 7%nat "Carol" "carol@example.com" "hash:c" "lender"])%list /\
  fst (login sampleExternals (stringLogin "carol@example.com" "c" "lender")
         (snd registered))
  = mkResponse 200
      (LoginBody "Login successful!"
         (jwt_sign sampleExternals (mkAuthUser 7%nat "carol@example.com" "lender"))
         "Carol" "carol@example.com" "lender").
Proof.
  apply (registered_user_can_log_in sampleExternals "Carol" "carol@example.com"
           "c" "lender" liveStore); try discriminate; try reflexivity.
  simpl. intros u Hin.
  repeat (destruct Hin as [<-|Hin]; [discriminate|]). contradiction.
Defined.

(** X9. With the same checks passed but a role outside the schema's list,
    the save is refused: the answer is 500, not 400, and no user is
    stored. *)
Theorem unlisted_role_is_an_internal_error
    (ext : Externals) (name email password role : string) (s : Store) :
  name <> EmptyString -> email <> EmptyString -> password <> EmptyString ->
  role <> EmptyString ->
  inEnum roleEnum role = false ->
  (forall u, In u (users s) -> User.email u <> email) ->
  let registered :=
    register ext
      (mkRegisterInput (Some name) (Some email) (Some password) (Some role)) s in
  errorKind (fst registered) = Some Internal /\ snd registered = s.
Proof.
  intros Hname Hemail Hpassword Hrole Henum Hfree registered. unfold registered.
  rewrite (register_past_checks ext name email password role s) by assumption.
  rewrite Henum. cbn [negb]. rewrite orb_true_r. split; reflexivity.
Qed.

Lemma unlisted_role_is_an_internal_error_witness :
  let registered :=
    register sampleExternals
      (mkRegisterInput (Some "Carol") (Some "carol@example.com") (Some "c")
         (Some "superuser")) liveStore in
  errorKind (fst registered) = Some Internal /\ snd registered = liveStore.
Proof.
  apply (unlisted_role_is_an_internal_error sampleExternals "Carol"
           "carol@example.com" "c" "superuser" liveStore);
    try discriminate; try reflexivity.
  simpl. intros u Hin.
  repeat (destruct Hin as [<-|Hin]; [discriminate|]). contradiction.
Defined.

(** ** More on the status change *)

Lemma setApplicationStatus_lender lender id status s :
  au_role lender = "lender" ->
  setApplicationStatus (Token lender) id status s
  = setApplicationStatus (Token lara) id status s.
Proof.
  intros Hrole. unfold setApplicationStatus, authenticate, requireRole.
  rewrite Hrole. reflexivity.
Qed.

(** X10. A status change looks at the role of the caller only: two lenders,
    whether or not either owns the offer behind the application, get the
    same answer and leave the same store. *)
Theorem setApplicationStatus_ignores_offer_ownership
    (lender1 lender2 : AuthUser) (id : ObjectId) (status : string) (s : Store) :
  au_role lender1 = "lender" ->
  au_role lender2 = "lender" ->
  setApplicationStatus (Token lender1) id status s
  = setApplicationStatus (Token lender2) id status s.
Proof.
  intros H1 H2. rewrite (setApplicationStatus_lender lender1) by assumption.
  rewrite (setApplicationStatus_lender lender2) by assumption. reflexivity.
Qed.

Lemma setApplicationStatus_ignores_offer_ownership_witness :
  setApplicationStatus (Token laraToken) 5%nat "rejected" liveStore
  = setApplicationStatus (Token (mkAuthUser 9%nat "leo@example.com" "lender"))
      5%nat "rejected" liveStore.
Proof.
  apply (setApplicationStatus_ignores_offer_ownership laraToken
           (mkAuthUser 9%nat "leo@example.com" "lender") 5%nat "rejected" liveStore);
    reflexivity.
Defined.

(** X11. A status change for an id no application has is answered 404; an
    approval of an application whose [loanOfferId] names no offer is
    answered 500.  Neither writes anything. *)
Theorem setApplicationStatus_failures
    (lender : AuthUser) (id : ObjectId) (status : string) (s : Store) :
  au_role lender = "lender" ->
  (findOne (byId LoanApplication._id id) (loanApplications s) = None ->
   errorKind (fst (setApplicationStatus (Token lender) id status s)) = Some NotFound /\
   snd (setApplicationStatus (Token lender) id status s) = s) /\
  (forall a,
      findOne (byId LoanApplication._id id) (loanApplications s) = Some a ->
      findOne (byId LoanOffer._id (LoanApplication.loanOfferId a)) (loanOffers s) = None ->
      errorKind (fst (setApplicationStatus (Token lender) id "approved" s))
      = Some Internal /\
      snd (setApplicationStatus (Token lender) id "approved" s) = s).
Proof.
  intros Hrole.
  unfold setApplicationStatus, authenticate, requireRole. rewrite Hrole.
  change (negb ("lender" =? "lender")%string) with false. cbv iota.
  unfold tryCatch, bind, getStore, populateLoanOffer, throw, reply.
  split.
  - intros Hnone. rewrite Hnone. split; reflexivity.
  - intros a Happ Hoffer. rewrite Happ. cbn [option_map pa_loanOfferId].
    rewrite Hoffer. split; reflexivity.
Qed.

Lemma setApplicationStatus_failures_witness :
  (errorKind (fst (setApplicationStatus (Token laraToken) 8%nat "rejected" liveStore))
   = Some NotFound /\
   snd (setApplicationStatus (Token laraToken) 8%nat "rejected" liveStore) = liveStore) /\
  (errorKind (fst (setApplicationStatus (Token lara) 0%nat "approved" danglingStore))
   = Some Internal /\
   snd (setApplicationStatus (Token lara) 0%nat "approved" danglingStore)
   = danglingStore).
Proof.
  split.
  - apply (proj1 (setApplicationStatus_failures laraToken 8%nat "rejected" liveStore
                    eq_refl)).
    reflexivity.
  - apply (proj2 (setApplicationStatus_failures lara 0%nat "approved" danglingStore
                    eq_refl)
             (LoanApplication.mk 0%nat 1%nat 99%nat "ID-1" 900 "car" "pending"));
      reflexivity.
Defined.

(** ** Applying to an offer *)

Lemma createApplication_borrower borrower offerId nationalId monthlySalary reason s :
  au_role borrower = "borrower" ->
  nationalId <> EmptyString -> reason <> EmptyString ->
  createApplication (Token borrower)
    (mkApplicationInput (Some offerId) (Some nationalId) (Some monthlySalary)
       (Some reason)) s
  = (mkResponse 201
       (ApplicationBody
          (Some (LoanApplication.mk (nextId s) (au_id borrower) offerId nationalId
                   monthlySalary reason "pending"))),
     bumpNextId
       (setLoanApplications
          (loanApplications s
           ++ [LoanApplication.mk (nextId s) (au_id borrower) offerId nationalId
                 monthlySalary reason "pending"]) s)).
Proof.
  intros Hrole Hnid Hreason.
  unfold createApplication, authenticate, requireRole. rewrite Hrole.
  change (negb ("borrower" =? "borrower")%string) with false. cbv iota.
  unfold saveLoanApplication, tryCatch, bind, getStore, modify, ret, reply.
  cbn [ai_loanOfferId ai_nationalId ai_monthlySalary ai_reason orEmpty].
  rewrite !falsy_Some by assumption. reflexivity.
Qed.

Lemma wellFormed_fresh_application s :
  wellFormed s ->
  findOne (byId LoanApplication._id (nextId s)) (loanApplications s) = None /\
  findOne (byId LoanPayment.applicationId (nextId s)) (loanPayments s) = None.
Proof.
  intros Hwf.
  assert (Hfresh : ~ In (nextId s) (map LoanApplication._id (loanApplications s))).
  { apply below_not_In, (wf_apps_below _ Hwf). }
  split; [apply findOne_byId_None_not_In, Hfresh|].
  apply findOne_byId_None_not_In. intros Hin.
  apply in_map_iff in Hin as (p & Hp & Hin).
  pose proof (wf_record_application _ Hwf) as Hrec.
  rewrite Forall_forall in Hrec. apply (Hrec p Hin).
  rewrite Hp. apply findOne_byId_None_not_In, Hfresh.
Qed.

(** X12. Nothing but listing looks at [isActive], and an application is
    stored without looking its offer up.  In a store the service can
    reach, a borrower's application against any stored offer, active or
    not, is answered 201 and stored as pending under the caller's id; its
    approval is answered 200, creates the payment record of the new
    application and leaves the offer inactive. *)
Theorem any_stored_offer_can_be_applied_to_and_approved
    (ext : Externals) (borrower lender : AuthUser) (offerId : ObjectId)
    (offer : LoanOffer.t) (nationalId reason : string) (monthlySalary : Z)
    (s : Store) :
  reachable ext s ->
  au_role borrower = "borrower" ->
  au_role lender = "lender" ->
  nationalId <> EmptyString -> reason <> EmptyString ->
  findOne (byId LoanOffer._id offerId) (loanOffers s) = Some offer ->
  let applied :=
    createApplication (Token borrower)
      (mkApplicationInput (Some offerId) (Some nationalId) (Some monthlySalary)
         (Some reason)) s in
  let approved :=
    setApplicationStatus (Token lender) (nextId s) "approved" (snd applied) in
  fst applied
  = mkResponse 201
      (ApplicationBody
         (Some (LoanApplication.mk (nextId s) (au_id borrower) offerId nationalId
                  monthlySalary reason "pending"))) /\
  fst approved
  = mkResponse 200
      (ApplicationBody
         (Some (LoanApplication.mk (nextId s) (au_id borrower) offerId nationalId
                  monthlySalary reason "approved"))) /\
  paymentsFor (nextId s) (snd approved)
  = [LoanPayment.mk (S (nextId s)) (nextId s) 0 []] /\
  offerIsActive offerId (snd approved) = Some false.
Proof.
  intros Hreach Hb Hl Hnid Hreason Hoffer applied approved.
  pose proof (reachable_wellFormed ext s Hreach) as Hwf.
  destruct (wellFormed_fresh_application s Hwf) as [Hnoapp Hnopay].
  set (newApp := LoanApplication.mk (nextId s) (au_id borrower) offerId nationalId
                   monthlySalary reason "pending").
  assert (Happlied : applied
            = (mkResponse 201 (ApplicationBody (Some newApp)),
               bumpNextId
                 (setLoanApplications (loanApplications s ++ [newApp]) s))).
  { apply createApplication_borrower; assumption. }
  split; [rewrite Happlied; reflexivity|].
  set (s1 := snd applied).
  assert (Happ1 : findOne (byId LoanApplication._id (nextId s)) (loanApplications s1)
                  = Some newApp).
  { unfold s1. rewrite Happlied. cbn [snd loanApplications bumpNextId setLoanApplications].
    apply findOne_app_last; [exact Hnoapp | apply Nat.eqb_refl]. }
  assert (Hoffer1 : findOne (byId LoanOffer._id (LoanApplication.loanOfferId newApp))
                      (loanOffers s1) = Some offer).
  { unfold s1. rewrite Happlied. exact Hoffer. }
  pose proof (setApplicationStatus_approved lender (nextId s) s1 newApp offer
                Hl Happ1 Hoffer1) as Happroved.
  change (setApplicationStatus (Token lender) (nextId s) "approved" s1)
    with approved in Happroved.
  assert (Hpay1 : loanPayments s1 = loanPayments s).
  { unfold s1. rewrite Happlied. reflexivity. }
  assert (Hnext1 : nextId s1 = S (nextId s)).
  { unfold s1. rewrite Happlied. reflexivity. }
  rewrite Hpay1, Hnopay, Hnext1 in Happroved.
  rewrite Happroved. cbn [fst snd]. split; [reflexivity|]. split.
  - unfold paymentsFor. cbn [loanPayments].
    rewrite filter_app.
    rewrite (proj1 (findOne_filter_nil _ _) Hnopay). cbn [filter app].
    unfold byId at 1. cbn [LoanPayment.applicationId]. rewrite Nat.eqb_refl.
    reflexivity.
  - unfold offerIsActive. cbn [loanOffers LoanApplication.loanOfferId newApp].
    assert (Hoffers1 : loanOffers s1 = loanOffers s).
    { unfold s1. rewrite Happlied. reflexivity. }
    rewrite Hoffers1. apply (offer_inactive_after_update _ _ offer Hoffer).
Qed.

Lemma any_stored_offer_can_be_applied_to_and_approved_witness :
  let applied :=
    createApplication (Token bobToken)
      (mkApplicationInput (Some 4%nat) (Some "ID-2") (Some 700) (Some "boat"))
      liveStore in
  let approved :=
    setApplicationStatus (Token laraToken) 7%nat "approved" (snd applied) in
  fst applied
  = mkResponse 201
      (ApplicationBody
         (Some (LoanApplication.mk 7%nat 3%nat 4%nat "ID-2" 700 "boat" "pending"))) /\
  fst approved
  = mkResponse 200
      (ApplicationBody
         (Some (LoanApplication.mk 7%nat 3%nat 4%nat "ID-2" 700 "boat" "approved"))) /\
  paymentsFor 7%nat (snd approved) = [LoanPayment.mk 8%nat 7%nat 0 []] /\
  offerIsActive 4%nat (snd approved) = Some false.
Proof.
  apply (any_stored_offer_can_be_applied_to_and_approved sampleExternals
           bobToken laraToken 4%nat (LoanOffer.mk 4%nat 0%nat 5000 12 24 false)
           "ID-2" "boat" 700 liveStore);
    try reflexivity; try discriminate.
  exact liveStore_reachable.
Defined.

(** ** Listing offers *)

Lemma listActiveOffers_borrower borrower s :
  au_role borrower = "borrower" ->
  listActiveOffers (Token borrower) s
  = Json 200
      (map (populateLender selectName s) (filter LoanOffer.isActive (loanOffers s))).
Proof.
  intros Hrole. unfold listActiveOffers, authenticateView, requireRoleView.
  rewrite Hrole. reflexivity.
Qed.

Lemma listOwnOffers_lender lender s :
  au_role lender = "lender" ->
  listOwnOffers (Token lender) s
  = Json 200 (filter (byId LoanOffer.lenderId (au_id lender)) (loanOffers s)).
Proof.
  intros Hrole. unfold listOwnOffers, authenticateView, requireRoleView.
  rewrite Hrole. reflexivity.
Qed.

Lemma createOffer_lender lender amount interestRate maxTermMonths s :
  au_role lender = "lender" ->
  createOffer (Token lender)
    (mkOfferInput (Some amount) (Some interestRate) (Some maxTermMonths)) s
  = (mkResponse 201
       (OfferBody
          (LoanOffer.mk (nextId s) (au_id lender) amount interestRate maxTermMonths true)),
     bumpNextId
       (setLoanOffers
          (loanOffers s
           ++ [LoanOffer.mk (nextId s) (au_id lender) amount interestRate
                 maxTermMonths true]) s)).
Proof.
  intros Hrole. unfold createOffer, authenticate, requireRole. rewrite Hrole.
  reflexivity.
Qed.

(** X13. An offer created by a lender carries the caller's id as lender and
    is active; it is the last of the caller's own offers, and the last of
    the active offers every borrower is shown. *)
Theorem created_offer_is_listed
    (lender borrower : AuthUser) (amount interestRate maxTermMonths : Z) (s : Store) :
  au_role lender = "lender" ->
  au_role borrower = "borrower" ->
  let created :=
    createOffer (Token lender)
      (mkOfferInput (Some amount) (Some interestRate) (Some maxTermMonths)) s in
  let newOffer :=
    LoanOffer.mk (nextId s) (au_id lender) amount interestRate maxTermMonths true in
  fst created = mkResponse 201 (OfferBody newOffer) /\
  listOwnOffers (Token lender) (snd created)
  = Json 200
      (filter (byId LoanOffer.lenderId (au_id lender)) (loanOffers s)
       ++ [newOffer])%list /\
  exists listed,
    listActiveOffers (Token borrower) (snd created) = Json 200 listed /\
    map ol_doc listed = (filter LoanOffer.isActive (loanOffers s) ++ [newOffer])%list.
Proof.
  intros Hl Hb created newOffer. unfold created, newOffer.
  rewrite (createOffer_lender lender amount interestRate maxTermMonths s Hl).
  cbn [fst snd]. split; [reflexivity|]. split.
  - rewrite (listOwnOffers_lender lender _ Hl).
    cbn [loanOffers bumpNextId setLoanOffers]. rewrite filter_app. cbn [filter].
    unfold byId at 2. cbn [LoanOffer.lenderId]. rewrite Nat.eqb_refl. reflexivity.
  - eexists. split; [apply (listActiveOffers_borrower borrower _ Hb)|].
    rewrite map_map. cbn [ol_doc populateLender]. rewrite map_id.
    cbn [loanOffers bumpNextId setLoanOffers]. rewrite filter_app. reflexivity.
Qed.

Lemma created_offer_is_listed_witness :
  let created :=
    createOffer (Token laraToken) (mkOfferInput (Some 800) (Some 9) (Some 6))
      liveStore in
  fst created = mkResponse 201 (OfferBody (LoanOffer.mk 7%nat 0%nat 800 9 6 true)) /\
  listOwnOffers (Token laraToken) (snd created)
  = Json 200
      (filter (byId LoanOffer.lenderId 0%nat) (loanOffers liveStore)
       ++ [LoanOffer.mk 7%nat 0%nat 800 9 6 true])%list /\
  exists listed,
    listActiveOffers (Token aliceToken) (snd created) = Json 200 listed /\
    map ol_doc listed
    = (filter LoanOffer.isActive (loanOffers liveStore)
       ++ [LoanOffer.mk 7%nat 0%nat 800 9 6 true])%list.
Proof.
  apply (created_offer_is_listed laraToken aliceToken 800 9 6 liveStore);
    reflexivity.
Defined.

Lemma In_updateOne_kept {A} (pred : A -> bool) upd docs d :
  In d docs -> pred d = false -> In d (updateOne pred upd docs).
Proof.
  induction docs as [|x rest IH]; simpl; [tauto|].
  intros [->|Hin] Hd.
  - rewrite Hd. now left.
  - destruct (pred x); [now right | right; auto].
Qed.

Lemma updateOne_unique_key {A} (key : A -> ObjectId) k upd docs d :
  (forall x, key (upd x) = key x) ->
  NoDup (map key docs) ->
  In d (updateOne (byId key k) upd docs) -> key d = k ->
  exists d0, In d0 docs /\ d = upd d0.
Proof.
  intros Hkey. induction docs as [|x rest IH]; simpl; intros Hnd Hin Hd; [contradiction|].
  inversion Hnd as [|kx ks Hnotin Hrest]; subst.
  unfold byId in Hin at 1. destruct (Nat.eqb_spec (key x) (key d)) as [Heq|Hne].
  - destruct Hin as [<-|Hin]; [exists x; auto|].
    exfalso. apply Hnotin. rewrite Heq. apply in_map, Hin.
  - destruct Hin as [<-|Hin]; [contradiction|].
    destruct (IH Hrest Hin eq_refl) as (d0 & Hd0 & ->). exists d0. auto.
Qed.

(** X14. In a store the service can reach, once an application is approved
    the offer behind it is no longer among the offers shown to borrowers,
    while every other active offer still is. *)
Theorem approved_offer_leaves_the_active_list
    (ext : Externals) (lender borrower : AuthUser) (id : ObjectId) (s : Store)
    (a : LoanApplication.t) (offer : LoanOffer.t) :
  reachable ext s ->
  au_role lender = "lender" ->
  au_role borrower = "borrower" ->
  findOne (byId LoanApplication._id id) (loanApplications s) = Some a ->
  findOne (byId LoanOffer._id (LoanApplication.loanOfferId a)) (loanOffers s) = Some offer ->
  exists listed,
    listActiveOffers (Token borrower)
      (snd (setApplicationStatus (Token lender) id "approved" s)) = Json 200 listed /\
    Forall (fun o => LoanOffer._id (ol_doc o) <> LoanApplication.loanOfferId a) listed /\
    (forall o,
        In o (loanOffers s) -> LoanOffer.isActive o = true ->
        LoanOffer._id o <> LoanApplication.loanOfferId a ->
        In o (map ol_doc listed)).
Proof.
  intros Hreach Hl Hb Happ Hoffer.
  pose proof (wf_offers_unique _ (reachable_wellFormed ext s Hreach)) as Hunique.
  rewrite (setApplicationStatus_approved lender id s a offer Hl Happ Hoffer).
  cbn [snd]. eexists. split; [apply (listActiveOffers_borrower borrower _ Hb)|].
  cbn [loanOffers]. split.
  - apply Forall_forall. intros o Ho Hid.
    apply in_map_iff in Ho as (d & <- & Hd). cbn [ol_doc populateLender] in Hid.
    apply filter_In in Hd as [Hd Hactive].
    destruct (updateOne_unique_key LoanOffer._id _ (LoanOffer.setIsActive false)
                _ d (fun _ => eq_refl) Hunique Hd Hid) as (d0 & _ & ->).
    discriminate Hactive.
  - intros o Ho Hactive Hid. rewrite map_map. cbn [ol_doc populateLender].
    rewrite map_id. apply filter_In. split; [|exact Hactive].
    apply In_updateOne_kept; [exact Ho|]. apply Nat.eqb_neq, Hid.
Qed.

Lemma approved_offer_leaves_the_active_list_witness :
  exists listed,
    listActiveOffers (Token aliceToken)
      (snd (setApplicationStatus (Token laraToken) 5%nat "approved" pendingStore))
    = Json 200 listed /\
    Forall (fun o => LoanOffer._id (ol_doc o) <> 4%nat) listed /\
    (forall o,
        In o (loanOffers pendingStore) -> LoanOffer.isActive o = true ->
        LoanOffer._id o <> 4%nat -> In o (map ol_doc listed)).
Proof.
  apply (approved_offer_leaves_the_active_list sampleExternals laraToken aliceToken
           5%nat pendingStore
           (LoanApplication.mk 5%nat 1%nat 4%nat "ID-1" 900 "car" "pending")
           (LoanOffer.mk 4%nat 0%nat 5000 12 24 true));
    try reflexivity.
  exact pendingStore_reachable.
Defined.

(** ** Deleting a user *)

Lemma deleteUser_admin admin rawId s :
  au_role admin = "admin" ->
  deleteUser (Token admin) rawId s
  = if sameString rawId (au_id admin)
    then (mkResponse 400 (ErrorBody "Cannot delete your own account"), s)
    else match castPathId rawId with
         | Some id =>
             (mkResponse 200 (MessageBody "User deleted successfully"),
              setUsers (deleteOne (byId User._id id) (users s)) s)
         | None => (mkResponse 500 (ErrorBody "Cast to ObjectId failed"), s)
         end.
Proof.
  intros Hrole. unfold deleteUser, authenticate, requireRole. rewrite Hrole.
  change (negb ("admin" =? "admin")%string) with false. cbv iota.
  unfold tryCatch, bind, modify, reply, ret, throw.
  destruct (sameString rawId (au_id admin)); [reflexivity|].
  destruct (castPathId rawId); reflexivity.
Qed.

Lemma sameString_true rawId tokenId :
  sameString rawId tokenId = true <-> rawId = Canonical tokenId.
Proof.
  destruct rawId as [id|id|]; simpl; try (split; discriminate).
  rewrite Nat.eqb_eq. split; [intros ->; reflexivity | intros [= ->]; reflexivity].
Qed.

Lemma In_deleteOne_kept {A} (pred : A -> bool) docs d :
  In d docs -> pred d = false -> In d (deleteOne pred docs).
Proof.
  induction docs as [|x rest IH]; simpl; [tauto|].
  intros [->|Hin] Hd.
  - rewrite Hd. now left.
  - destruct (pred x); [exact Hin | right; auto].
Qed.

Lemma deleteOne_unique_key {A} (key : A -> ObjectId) k docs :
  NoDup (map key docs) ->
  findOne (byId key k) (deleteOne (byId key k) docs) = None.
Proof.
  intros Hnd. apply findOne_byId_None_not_In.
  induction docs as [|x rest IH]; simpl; [tauto|].
  inversion Hnd as [|kx ks Hnotin Hrest]; subst.
  unfold byId at 1. destruct (Nat.eqb_spec (key x) k) as [<-|Hne]; [exact Hnotin|].
  simpl. intros [Heq|Hin]; [contradiction | exact (IH Hrest Hin)].
Qed.

(** X15. The self-delete guard compares the path segment with the id of
    the token as strings.  The id spelled exactly as the token spells it is
    answered 400 and nothing changes; a segment that spells no id is
    answered 500 and nothing changes.  Every other segment is answered 200,
    whether or not a user has the id it spells, another spelling of the
    caller's own id included: in a store the service can reach no user has
    that id afterwards, every other user is kept, and the offers,
    applications and payment records, those of the deleted user included,
    stay as they were. *)
Theorem deleteUser_outcomes
    (ext : Externals) (admin : AuthUser) (rawId : PathId) (s : Store) :
  reachable ext s ->
  au_role admin = "admin" ->
  let deleted := deleteUser (Token admin) rawId s in
  (rawId = Canonical (au_id admin) ->
   errorKind (fst deleted) = Some Validation /\ snd deleted = s) /\
  (rawId = Malformed ->
   errorKind (fst deleted) = Some Internal /\ snd deleted = s) /\
  (forall id,
      castPathId rawId = Some id ->
      rawId <> Canonical (au_id admin) ->
      fst deleted = mkResponse 200 (MessageBody "User deleted successfully") /\
      findOne (byId User._id id) (users (snd deleted)) = None /\
      (forall u, In u (users s) -> User._id u <> id -> In u (users (snd deleted))) /\
      loanOffers (snd deleted) = loanOffers s /\
      loanApplications (snd deleted) = loanApplications s /\
      loanPayments (snd deleted) = loanPayments s).
Proof.
  intros Hreach Hrole deleted. unfold deleted.
  rewrite (deleteUser_admin admin rawId s Hrole). split; [|split].
  - intros ->. cbn [sameString]. rewrite Nat.eqb_refl. split; reflexivity.
  - intros ->. split; reflexivity.
  - intros id Hcast Hother.
    destruct (sameString rawId (au_id admin)) eqn:Hsame;
      [apply sameString_true in Hsame; contradiction|].
    rewrite Hcast. cbn [fst snd users setUsers].
    split; [reflexivity|]. split.
    + apply deleteOne_unique_key.
      apply (wf_users_unique _ (reachable_wellFormed ext s Hreach)).
    + split; [|repeat split].
      intros u Hu Hid. apply In_deleteOne_kept; [exact Hu|].
      apply Nat.eqb_neq, Hid.
Qed.

Lemma deleteUser_outcomes_witness :
  let deleted := deleteUser (Token rootToken) (OtherSpelling 2%nat) liveStore in
  fst deleted = mkResponse 200 (MessageBody "User deleted successfully") /\
  findOne (byId User._id 2%nat) (users (snd deleted)) = None /\
  (forall u, In u (users liveStore) -> User._id u <> 2%nat ->
             In u (users (snd deleted))) /\
  loanOffers (snd deleted) = loanOffers liveStore /\
  loanApplications (snd deleted) = loanApplications liveStore /\
  loanPayments (snd deleted) = loanPayments liveStore.
Proof.
  apply (proj2 (proj2 (deleteUser_outcomes sampleExternals rootToken
                         (OtherSpelling 2%nat) liveStore
                         liveStore_reachable eq_refl))
           2%nat eq_refl).
  discriminate.
Defined.

(** X16. Deleting a lender does not withdraw their offers: in a store the
    service can reach, an active offer of the deleted lender is still
    shown to borrowers, with [null] in place of the lender. *)
Theorem offers_of_a_deleted_lender_stay_listed
    (ext : Externals) (admin borrower : AuthUser) (rawId : PathId) (id : ObjectId)
    (offer : LoanOffer.t) (s : Store) :
  reachable ext s ->
  au_role admin = "admin" ->
  au_role borrower = "borrower" ->
  castPathId rawId = Some id ->
  id <> au_id admin ->
  In offer (loanOffers s) ->
  LoanOffer.lenderId offer = id ->
  LoanOffer.isActive offer = true ->
  exists listed,
    listActiveOffers (Token borrower) (snd (deleteUser (Token admin) rawId s))
    = Json 200 listed /\
    In (mkOfferWithLender offer None) listed.
Proof.
  intros Hreach Ha Hb Hcast Hne Hin Hlender Hactive.
  rewrite (deleteUser_admin admin rawId s Ha).
  destruct (sameString rawId (au_id admin)) eqn:Hsame.
  { apply sameString_true in Hsame. subst rawId. injection Hcast as <-.
    contradiction. }
  rewrite Hcast. cbn [snd].
  eexists. split; [apply (listActiveOffers_borrower borrower _ Hb)|].
  cbn [loanOffers setUsers]. apply in_map_iff. exists offer. split.
  - unfold populateLender. cbn [users setUsers]. rewrite Hlender.
    rewrite deleteOne_unique_key; [reflexivity|].
    apply (wf_users_unique _ (reachable_wellFormed ext s Hreach)).
  - apply filter_In. split; assumption.
Qed.

Lemma offers_of_a_deleted_lender_stay_listed_witness :
  exists listed,
    listActiveOffers (Token aliceToken)
      (snd (deleteUser (Token rootToken) (Canonical 0%nat) pendingStore))
    = Json 200 listed /\
    In (mkOfferWithLender (LoanOffer.mk 4%nat 0%nat 5000 12 24 true) None) listed.
Proof.
  apply (offers_of_a_deleted_lender_stay_listed sampleExternals rootToken aliceToken
           (Canonical 0%nat) 0%nat (LoanOffer.mk 4%nat 0%nat 5000 12 24 true)
           pendingStore);
    try reflexivity; try discriminate.
  - exact pendingStore_reachable.
  - simpl. left. reflexivity.
Defined.

(** ** Changing a role *)

Lemma setUserRole_admin admin id role s :
  au_role admin = "admin" ->
  setUserRole (Token admin) id role s
  = (mkResponse 200
       (UserBody
          (option_map excludePassword
             (option_map (User.setRole role) (findOne (byId User._id id) (users s))))),
     setUsers (updateOne (byId User._id id) (User.setRole role) (users s)) s).
Proof.
  intros Hrole. unfold setUserRole, authenticate, requireRole. rewrite Hrole.
  reflexivity.
Qed.

Lemma emailAndRole_other_email email password role us :
  (forall u, In u us -> User.email u <> email) ->
  findOne (emailAndRole (stringLogin email password role)) us = None.
Proof.
  intros Hother. apply findOne_None_intro. intros u Hu. unfold emailAndRole.
  cbn [stringLogin li_email li_role conditionHolds].
  rewrite (proj2 (String.eqb_neq _ _) (Hother u Hu)). reflexivity.
Qed.

Lemma login_query_after_role_change password asked id role us u :
  NoDup (map User.email us) ->
  findOne (byId User._id id) us = Some u ->
  findOne (emailAndRole (stringLogin (User.email u) password asked))
    (updateOne (byId User._id id) (User.setRole role) us)
  = if (role =? asked)%string then Some (User.setRole role u) else None.
Proof.
  intros Hnd Hfind. unfold findOne in *.
  induction us as [|x rest IH]; simpl in *; [discriminate|].
  inversion Hnd as [|kx ks Hnotin Hrest]; subst.
  destruct (byId User._id id x) eqn:Hx.
  - injection Hfind as ->. simpl. unfold emailAndRole at 1.
    cbn [stringLogin li_email li_role conditionHolds
         User.setRole User.email User.role].
    rewrite String.eqb_refl.
    cbn [andb]. destruct (role =? asked)%string; [reflexivity|].
    apply emailAndRole_other_email. intros d Hd Heq. apply Hnotin.
    rewrite <- Heq. apply in_map, Hd.
  - simpl. unfold emailAndRole at 1.
    cbn [stringLogin li_email li_role conditionHolds].
    assert (Hne : User.email x <> User.email u).
    { intros Heq. apply Hnotin. rewrite Heq.
      apply in_map. apply (find_some _ _ Hfind). }
    rewrite (proj2 (String.eqb_neq _ _) Hne). cbn [andb]. apply IH; assumption.
Qed.

(** X17. A role change stores any role string (the schema's list is not
    consulted on update) and answers the user without the password.  In a
    store the service can reach, the user then logs in under the new role
    with the unchanged password, and no longer under the former role. *)
Theorem role_change_moves_the_login
    (ext : Externals) (admin : AuthUser) (id : ObjectId) (role password : string)
    (s : Store) (u : User.t) :
  reachable ext s ->
  au_role admin = "admin" ->
  findOne (byId User._id id) (users s) = Some u ->
  bcrypt_compare ext password (User.password u) = true ->
  let changed := setUserRole (Token admin) id role s in
  fst changed
  = mkResponse 200
      (UserBody
         (Some (UserView.mk (User._id u) (User.name u) (User.email u) None role))) /\
  fst (login ext (stringLogin (User.email u) password role) (snd changed))
  = mkResponse 200
      (LoginBody "Login successful!"
         (jwt_sign ext (mkAuthUser (User._id u) (User.email u) role))
         (User.name u) (User.email u) role) /\
  (User.role u <> role ->
   errorKind
     (fst (login ext (stringLogin (User.email u) password (User.role u)) (snd changed)))
   = Some Validation).
Proof.
  intros Hreach Hrole Hfind Hcompare changed. unfold changed.
  pose proof (wf_emails_unique _ (reachable_wellFormed ext s Hreach)) as Hemails.
  rewrite (setUserRole_admin admin id role s Hrole). cbn [fst snd].
  rewrite Hfind. split; [reflexivity|].
  rewrite !login_strings. cbn [users setUsers]. split.
  - rewrite (login_query_after_role_change password role id role (users s) u
               Hemails Hfind).
    rewrite String.eqb_refl.
    cbn [User.setRole User.password User._id User.name User.email User.role].
    rewrite Hcompare. reflexivity.
  - intros Hother.
    rewrite (login_query_after_role_change password (User.role u) id role (users s) u
               Hemails Hfind).
    rewrite (proj2 (String.eqb_neq role (User.role u))); [reflexivity|].
    intros Heq. apply Hother. symmetry. exact Heq.
Qed.

Lemma role_change_moves_the_login_witness :
  let changed := setUserRole (Token rootToken) 3%nat "auditor" liveStore in
  fst changed
  = mkResponse 200
      (UserBody (Some (UserView.mk 3%nat "Bob" "bob@example.com" None "auditor"))) /\
  fst (login sampleExternals (stringLogin "bob@example.com" "b" "auditor")
         (snd changed))
  = mkResponse 200
      (LoginBody "Login successful!"
         (jwt_sign sampleExternals (mkAuthUser 3%nat "bob@example.com" "auditor"))
         "Bob" "bob@example.com" "auditor") /\
  ("borrower" <> "auditor" ->
   errorKind
     (fst (login sampleExternals (stringLogin "bob@example.com" "b" "borrower")
             (snd changed)))
   = Some Validation).
Proof.
  apply (role_change_moves_the_login sampleExternals rootToken 3%nat "auditor" "b"
           liveStore (User.mk 3%nat "Bob" "bob@example.com" "hash:b" "borrower"));
    try reflexivity.
  exact liveStore_reachable.
Defined.

(** X18. A role change for an id no user has is answered 200 with a [null]
    body, not a NotFound error, and changes nothing. *)
Theorem role_change_of_unknown_user_is_silent
    (admin : AuthUser) (id : ObjectId) (role : string) (s : Store) :
  au_role admin = "admin" ->
  findOne (byId User._id id) (users s) = None ->
  setUserRole (Token admin) id role s = (mkResponse 200 (UserBody None), s).
Proof.
  intros Hrole Hnone. rewrite (setUserRole_admin admin id role s Hrole).
  rewrite Hnone, updateOne_no_match by assumption.
  destruct s; reflexivity.
Qed.

Lemma role_change_of_unknown_user_is_silent_witness :
  setUserRole (Token rootToken) 42%nat "lender" liveStore
  = (mkResponse 200 (UserBody None), liveStore).
Proof.
  apply (role_change_of_unknown_user_is_silent rootToken 42%nat "lender" liveStore);
    reflexivity.
Defined.

(** ** More on the scores *)

Lemma specAdminPoints_nonneg apps : 0 <= specAdminPoints apps.
Proof.
  induction apps as [|a apps IH]; simpl; [lia|].
  destruct (LoanApplication.status a =? "approved")%string; lia.
Qed.

Lemma specAdminPoints_app apps apps' :
  specAdminPoints (apps ++ apps') = specAdminPoints apps + specAdminPoints apps'.
Proof.
  induction apps as [|a apps IH]; simpl; [reflexivity|]. rewrite IH. lia.
Qed.

Lemma clamp_monotone lo hi x y :
  lo <= hi -> x <= y -> clamp lo hi x <= clamp lo hi y.
Proof.
  intros Hle Hxy. unfold clamp.
  destruct (Z.ltb_spec x lo), (Z.ltb_spec y lo), (Z.ltb_spec hi x), (Z.ltb_spec hi y);
    lia.
Qed.

(** X19. The admin-view score never uses its lower bound: it is the
    smaller of 850 and 700 + 5 per payment entry + 20 per approved
    application, hence at least 700, and more applications or payment
    records never lower it. *)
Theorem admin_score_floor_and_growth
    (apps apps' : list LoanApplication.t) (ps ps' : list LoanPayment.t) :
  calculateCreditScore (mkScoreInput apps ps)
  = Z.min 850
      (700 + 5 * Z.of_nat (length (flat_map LoanPayment.payments ps))
       + specAdminPoints apps) /\
  700 <= calculateCreditScore (mkScoreInput apps ps) /\
  calculateCreditScore (mkScoreInput apps ps)
  <= calculateCreditScore (mkScoreInput (apps ++ apps') (ps ++ ps')).
Proof.
  rewrite !calculateCreditScore_spec. unfold specScoreForAdmin.
  pose proof (specAdminPoints_nonneg apps) as Hpts.
  pose proof (specAdminPoints_nonneg apps') as Hpts'.
  split; [|split].
  - unfold clamp.
    destruct (Z.ltb_spec
                (700 + 5 * Z.of_nat (length (flat_map LoanPayment.payments ps))
                 + specAdminPoints apps) 300); [lia|].
    destruct (Z.ltb_spec 850
                (700 + 5 * Z.of_nat (length (flat_map LoanPayment.payments ps))
                 + specAdminPoints apps)); lia.
  - unfold clamp.
    destruct (Z.ltb_spec
                (700 + 5 * Z.of_nat (length (flat_map LoanPayment.payments ps))
                 + specAdminPoints apps) 300); [lia|].
    destruct (Z.ltb_spec 850
                (700 + 5 * Z.of_nat (length (flat_map LoanPayment.payments ps))
                 + specAdminPoints apps)); lia.
  - apply clamp_monotone; [lia|].
    rewrite flat_map_app, length_app, specAdminPoints_app. lia.
Qed.

(** X20. The borrower's score request reads no payment.  For a token with
    role 'borrower' the answer is 200 with the base score 650 when populate
    is not strict and a user has the token's id, and 500 in every other
    case; it is the same in two stores that hold the same users, whatever
    their payment records are. *)
Theorem borrower_score_is_650_or_an_error
    (strictPopulate : bool) (borrower : AuthUser) (s : Store) :
  au_role borrower = "borrower" ->
  let answer := borrowerCreditScore strictPopulate (Token borrower) s in
  (strictPopulate = false ->
   findOne (byId User._id (au_id borrower)) (users s) <> None ->
   answer = Json 200 650) /\
  (strictPopulate = true \/ findOne (byId User._id (au_id borrower)) (users s) = None ->
   refusedAs Internal answer) /\
  (forall s',
      users s' = users s ->
      borrowerCreditScore strictPopulate (Token borrower) s' = answer).
Proof.
  intros Hrole answer. unfold answer, borrowerCreditScore, authenticateView,
    requireRoleView.
  rewrite Hrole. change (negb ("borrower" =? "borrower")%string) with false.
  cbv iota. split; [|split].
  - intros -> Hfound.
    destruct (findOne (byId User._id (au_id borrower)) (users s)); [reflexivity|].
    contradiction.
  - intros [-> | ->].
    + destruct (findOne (byId User._id (au_id borrower)) (users s)); reflexivity.
    + reflexivity.
  - intros s' ->. reflexivity.
Qed.

Lemma borrower_score_is_650_or_an_error_witness :
  borrowerCreditScore false (Token aliceToken) liveStore = Json 200 650.
Proof.
  apply (proj1 (borrower_score_is_650_or_an_error false aliceToken liveStore eq_refl)).
  - reflexivity.
  - discriminate.
Defined.

(** ** The borrowers view *)

(** X21. The admin's borrowers view has one element per user with role
    'borrower', in store order.  The applications listed with a borrower
    are exactly the stored applications with that borrower's id; every
    payment record listed belongs to one of them; and the score shown is
    the admin-view score of just these applications and records. *)
Theorem borrowers_view_keeps_borrowers_apart (admin : AuthUser) (s : Store) :
  au_role admin = "admin" ->
  exists data,
    fst (listBorrowersWithDerivedData (Token admin) s)
    = mkResponse 200 (BorrowersBody data) /\
    map bd_borrower data
    = map excludePassword
        (filter (fun u => (User.role u =? "borrower")%string) (users s)) /\
    Forall
      (fun d =>
         Forall (fun a =>
                   In (pa_doc a) (loanApplications s) /\
                   LoanApplication.borrowerId (pa_doc a) = UserView._id (bd_borrower d))
                (bd_applications d) /\
         (forall a,
             In a (loanApplications s) ->
             LoanApplication.borrowerId a = UserView._id (bd_borrower d) ->
             In a (map pa_doc (bd_applications d))) /\
         Forall (fun p =>
                   In (pp_doc p) (loanPayments s) /\
                   exists a,
                     In a (bd_applications d) /\
                     LoanApplication._id (pa_doc a)
                     = LoanPayment.applicationId (pp_doc p))
                (bd_payments d) /\
         bd_creditScore d
         = calculateCreditScore
             (mkScoreInput (map pa_doc (bd_applications d))
                           (map pp_doc (bd_payments d))))
      data.
Proof.
  intros Hrole.
  unfold listBorrowersWithDerivedData, authenticate, requireRole. rewrite Hrole.
  change (negb ("admin" =? "admin")%string) with false. cbv iota.
  unfold tryCatch, bind, getStore, reply. cbn beta iota zeta. cbn [fst].
  eexists. split; [reflexivity|]. split.
  - rewrite map_map. cbn [bd_borrower]. apply map_id.
  - apply Forall_map. apply Forall_forall. intros b Hb.
    cbn [bd_borrower bd_applications bd_payments bd_creditScore].
    split; [|split; [|split; [|reflexivity]]].
    + apply Forall_forall. intros a Ha.
      apply filter_In in Ha as [Ha Hown]. apply in_map_iff in Ha as (a0 & <- & Ha0).
      apply filter_In in Ha0 as [Ha0 _]. cbn [pa_doc populateLoanOffer] in *.
      split; [exact Ha0 | apply Nat.eqb_eq, Hown].
    + intros a Ha Hown. apply in_map_iff.
      exists (populateLoanOffer s a). split; [reflexivity|].
      apply filter_In. split.
      * apply in_map. apply filter_In. split; [exact Ha|].
        apply existsb_exists. exists (UserView._id b). split.
        -- apply in_map, Hb.
        -- apply Nat.eqb_eq, Hown.
      * cbn [pa_doc populateLoanOffer]. apply Nat.eqb_eq, Hown.
    + apply Forall_forall. intros p Hp.
      apply filter_In in Hp as [Hp Hmine]. apply in_map_iff in Hp as (p0 & <- & Hp0).
      cbn [pp_doc populateApplication]. split; [exact Hp0|].
      apply existsb_exists in Hmine as (a & Ha & Hsame). exists a. split; [exact Ha|].
      cbn [pp_applicationId populateApplication] in Hsame.
      destruct (findOne (byId LoanApplication._id (LoanPayment.applicationId p0))
                  (loanApplications s)) as [populated|] eqn:Hfind; [|discriminate].
      apply Nat.eqb_eq in Hsame. rewrite Hsame.
      apply findOne_Some_In in Hfind as [_ Hid]. apply byId_true, Hid.
Qed.

Lemma borrowers_view_keeps_borrowers_apart_witness :
  exists data,
    fst (listBorrowersWithDerivedData (Token rootToken) liveStore)
    = mkResponse 200 (BorrowersBody data) /\
    map bd_borrower data
    = map excludePassword
        (filter (fun u => (User.role u =? "borrower")%string) (users liveStore)) /\
    Forall
      (fun d =>
         Forall (fun a =>
                   In (pa_doc a) (loanApplications liveStore) /\
                   LoanApplication.borrowerId (pa_doc a) = UserView._id (bd_borrower d))
                (bd_applications d) /\
         (forall a,
             In a (loanApplications liveStore) ->
             LoanApplication.borrowerId a = UserView._id (bd_borrower d) ->
             In a (map pa_doc (bd_applications d))) /\
         Forall (fun p =>
                   In (pp_doc p) (loanPayments liveStore) /\
                   exists a,
                     In a (bd_applications d) /\
                     LoanApplication._id (pa_doc a)
                     = LoanPayment.applicationId (pp_doc p))
                (bd_payments d) /\
         bd_creditScore d
         = calculateCreditScore
             (mkScoreInput (map pa_doc (bd_applications d))
                           (map pp_doc (bd_payments d))))
      data.
Proof.
  apply (borrowers_view_keeps_borrowers_apart rootToken liveStore). reflexivity.
Defined.

(** ** JavaScript objects built in a loop *)

Lemma findOne_app {A} (pred : A -> bool) docs more :
  findOne pred (docs ++ more)
  = match findOne pred docs with
    | Some d => Some d
    | None => findOne pred more
    end.
Proof.
  unfold findOne. induction docs as [|x rest IH]; simpl; [reflexivity|].
  destruct (pred x); [reflexivity | exact IH].
Qed.

(** After the loop, a key holds the value of the last document stored
    under it. *)
Lemma fold_setKey_lookup {A V} (key : A -> ObjectId) (val : A -> V) docs m k :
  fold_left (fun m d => setKey (key d) (val d) m) docs m k
  = match findOne (byId key k) (rev docs) with
    | Some d => Some (val d)
    | None => m k
    end.
Proof.
  revert m. induction docs as [|x rest IH]; intros m; simpl; [reflexivity|].
  rewrite IH, findOne_app.
  destruct (findOne (byId key k) (rev rest)); [reflexivity|].
  unfold findOne, setKey, byId. simpl. rewrite (Nat.eqb_sym k (key x)).
  destruct (key x =? k)%nat; reflexivity.
Qed.

Lemma findOne_unique {A} (key : A -> ObjectId) docs d :
  NoDup (map key docs) -> In d docs -> findOne (byId key (key d)) docs = Some d.
Proof.
  unfold findOne, byId.
  induction docs as [|x rest IH]; simpl; intros Hnd Hin; [contradiction|].
  inversion Hnd as [|kx ks Hnotin Hrest]; subst.
  destruct Hin as [->|Hin]; [rewrite Nat.eqb_refl; reflexivity|].
  destruct (Nat.eqb_spec (key x) (key d)) as [Heq|_]; [|auto].
  exfalso. apply Hnotin. rewrite Heq. apply in_map, Hin.
Qed.

Lemma findOne_rev_unique {A} (key : A -> ObjectId) k docs :
  NoDup (map key docs) ->
  findOne (byId key k) (rev docs) = findOne (byId key k) docs.
Proof.
  intros Hnd.
  destruct (findOne (byId key k) docs) as [d|] eqn:Hfind.
  - apply findOne_Some_In in Hfind as [Hin Hk]. apply byId_true in Hk. subst k.
    apply findOne_unique; [|apply in_rev; rewrite rev_involutive; exact Hin].
    rewrite map_rev. apply NoDup_rev, Hnd.
  - apply findOne_byId_None_not_In. apply findOne_byId_None_not_In in Hfind.
    rewrite map_rev. intros Hin. apply Hfind. apply in_rev, Hin.
Qed.

Lemma findOne_filter_same {A} (pred q : A -> bool) docs :
  (forall d, pred d = true -> q d = true) ->
  findOne pred (filter q docs) = findOne pred docs.
Proof.
  intros Himp. unfold findOne. induction docs as [|x rest IH]; simpl; [reflexivity|].
  destruct (pred x) eqn:Hp.
  - rewrite (Himp x Hp). simpl. rewrite Hp. reflexivity.
  - destruct (q x); simpl; [rewrite Hp|]; exact IH.
Qed.

Lemma NoDup_map_filter {A K} (key : A -> K) (q : A -> bool) docs :
  NoDup (map key docs) -> NoDup (map key (filter q docs)).
Proof.
  induction docs as [|x rest IH]; simpl; intros Hnd; [constructor|].
  inversion Hnd as [|kx ks Hnotin Hrest]; subst.
  destruct (q x); [|auto]. simpl. constructor; [|auto].
  intros Hin. apply Hnotin. apply in_map_iff in Hin as (d & Hd & Hin).
  apply filter_In in Hin as [Hin _]. rewrite <- Hd. apply in_map, Hin.
Qed.

Lemma orZero_Some n : orZero (Some n) = n.
Proof. simpl. destruct (Z.eqb_spec n 0); congruence. Qed.

(** ** The lender's applications view *)

(** X22. In a store the service can reach, the lender's applications view
    lists exactly the stored applications on offers whose lender is the
    caller, and shows with each the running total and payments of its
    payment record, or [null] when it has none. *)
Theorem lender_view_shows_applications_on_own_offers
    (ext : Externals) (lender : AuthUser) (s : Store) :
  reachable ext s ->
  au_role lender = "lender" ->
  exists listed,
    listApplicationsForLenderOffers (Token lender) s = Json 200 listed /\
    Forall
      (fun e =>
         In (ea_doc e) (loanApplications s) /\
         (exists o,
             In o (loanOffers s) /\
             LoanOffer._id o = LoanApplication.loanOfferId (ea_doc e) /\
             LoanOffer.lenderId o = au_id lender) /\
         ea_paymentInfo e
         = option_map
             (fun p => mkPaymentInfo (LoanPayment.amountPaid p) (LoanPayment.payments p))
             (findOne (byId LoanPayment.applicationId (LoanApplication._id (ea_doc e)))
                (loanPayments s)))
      listed /\
    (forall a o,
        In a (loanApplications s) -> In o (loanOffers s) ->
        LoanOffer._id o = LoanApplication.loanOfferId a ->
        LoanOffer.lenderId o = au_id lender ->
        In a (map ea_doc listed)).
Proof.
  intros Hreach Hrole.
  pose proof (wf_one_record _ (reachable_wellFormed ext s Hreach)) as Hone.
  unfold listApplicationsForLenderOffers, authenticateView, requireRoleView.
  rewrite Hrole. change (negb ("lender" =? "lender")%string) with false. cbv iota.
  cbv zeta. eexists. split; [reflexivity|]. split.
  - apply Forall_map. apply Forall_forall. intros a Ha.
    cbn [ea_doc ea_paymentInfo]. pose proof Ha as Hlisted.
    apply filter_In in Ha as [Ha Hmine]. split; [exact Ha|]. split.
    + apply existsb_exists in Hmine as (oid & Hoid & Heq).
      apply in_map_iff in Hoid as (o & <- & Ho). apply filter_In in Ho as [Ho Hown].
      exists o. split; [exact Ho|]. split.
      * symmetry. apply Nat.eqb_eq, Heq.
      * apply byId_true, Hown.
    + rewrite fold_setKey_lookup.
      rewrite findOne_rev_unique by (apply NoDup_map_filter, Hone).
      rewrite findOne_filter_same.
      * destruct (findOne (byId LoanPayment.applicationId (LoanApplication._id a))
                    (loanPayments s)); reflexivity.
      * intros p Hp. apply byId_true in Hp. apply existsb_exists.
        exists (LoanApplication._id a). split; [apply in_map, Hlisted|].
        apply Nat.eqb_eq, Hp.
  - intros a o Ha Ho Hid Hown. rewrite map_map. cbn [ea_doc]. rewrite map_id.
    apply filter_In. split; [exact Ha|]. apply existsb_exists.
    exists (LoanOffer._id o). split.
    + apply in_map. apply filter_In. split; [exact Ho | apply byId_true, Hown].
    + apply Nat.eqb_eq. symmetry. exact Hid.
Qed.

Lemma lender_view_shows_applications_on_own_offers_witness :
  exists listed,
    listApplicationsForLenderOffers (Token laraToken) liveStore = Json 200 listed /\
    Forall
      (fun e =>
         In (ea_doc e) (loanApplications liveStore) /\
         (exists o,
             In o (loanOffers liveStore) /\
             LoanOffer._id o = LoanApplication.loanOfferId (ea_doc e) /\
             LoanOffer.lenderId o = 0%nat) /\
         ea_paymentInfo e
         = option_map
             (fun p => mkPaymentInfo (LoanPayment.amountPaid p) (LoanPayment.payments p))
             (findOne (byId LoanPayment.applicationId (LoanApplication._id (ea_doc e)))
                (loanPayments liveStore)))
      listed /\
    (forall a o,
        In a (loanApplications liveStore) -> In o (loanOffers liveStore) ->
        LoanOffer._id o = LoanApplication.loanOfferId a ->
        LoanOffer.lenderId o = 0%nat ->
        In a (map ea_doc listed)).
Proof.
  apply (lender_view_shows_applications_on_own_offers sampleExternals laraToken
           liveStore liveStore_reachable).
  reflexivity.
Defined.

Example lender_view_of_liveStore :
  listApplicationsForLenderOffers (Token laraToken) liveStore
  = Json 200
      [ mkEnrichedApplication
          (LoanApplication.mk 5%nat 1%nat 4%nat "ID-1" 900 "car" "approved")
          (Some (UserRef.mk 1%nat "Alice" (Some "alice@example.com")))
          (Some (mkOfferTerms 4%nat 5000 12))
          (Some (mkPaymentInfo 100 [PaymentEntry.mk 7 100])) ].
Proof. reflexivity. Qed.

(** ** The borrower's payments view *)

(** X23. In a store the service can reach, the borrower's payments view
    lists exactly the payment records of the caller's own applications,
    and shows with each the amount and the rate of the offer behind the
    application, or 0 for both when no offer has that id. *)
Theorem borrower_view_shows_own_payments
    (ext : Externals) (borrower : AuthUser) (s : Store) :
  reachable ext s ->
  au_role borrower = "borrower" ->
  exists listed,
    listOwnPayments (Token borrower) s = Json 200 listed /\
    Forall
      (fun e =>
         In (ep_doc e) (loanPayments s) /\
         exists a,
           findOne (byId LoanApplication._id (LoanPayment.applicationId (ep_doc e)))
             (loanApplications s) = Some a /\
           LoanApplication.borrowerId a = au_id borrower /\
           ep_loanAmount e
           = match findOne (byId LoanOffer._id (LoanApplication.loanOfferId a))
                     (loanOffers s) with
             | Some offer => LoanOffer.amount offer
             | None => 0
             end /\
           ep_interestRate e
           = match findOne (byId LoanOffer._id (LoanApplication.loanOfferId a))
                     (loanOffers s) with
             | Some offer => LoanOffer.interestRate offer
             | None => 0
             end)
      listed /\
    (forall p a,
        In p (loanPayments s) -> In a (loanApplications s) ->
        LoanApplication._id a = LoanPayment.applicationId p ->
        LoanApplication.borrowerId a = au_id borrower ->
        In p (map ep_doc listed)).
Proof.
  intros Hreach Hrole.
  pose proof (wf_apps_unique _ (reachable_wellFormed ext s Hreach)) as Hunique.
  unfold listOwnPayments, authenticateView, requireRoleView.
  rewrite Hrole. change (negb ("borrower" =? "borrower")%string) with false. cbv iota.
  cbv zeta. eexists. split; [reflexivity|].
  set (own := filter (byId LoanApplication.borrowerId (au_id borrower))
                (loanApplications s)).
  assert (Hown_unique :
            NoDup (map (fun a => LoanApplication._id (pa_doc a))
                     (map (populateLoanOffer s) own))).
  { rewrite map_map. cbn [pa_doc populateLoanOffer].
    apply NoDup_map_filter, Hunique. }
  split.
  - apply Forall_map. apply Forall_forall. intros p Hp.
    cbn [ep_doc ep_loanAmount ep_interestRate].
    apply filter_In in Hp as [Hp Hmine]. split; [exact Hp|].
    apply existsb_exists in Hmine as (k & Hk & Heq). apply Nat.eqb_eq in Heq.
    apply in_map_iff in Hk as (pa & Hpa & Hin).
    pose proof Hin as Hin'. apply in_map_iff in Hin' as (a & <- & Ha).
    cbn [pa_doc populateLoanOffer] in Hpa. subst k.
    pose proof Ha as Ha'. apply filter_In in Ha' as [Hstored Hmine].
    exists a. split; [rewrite Heq; apply findOne_unique; assumption|].
    split; [apply byId_true, Hmine|].
    unfold offerField. rewrite !fold_setKey_lookup.
    rewrite (findOne_rev_unique (fun a => LoanApplication._id (pa_doc a)))
      by exact Hown_unique.
    rewrite Heq.
    pose proof (findOne_unique (fun a => LoanApplication._id (pa_doc a)) _
                  (populateLoanOffer s a) Hown_unique Hin) as Hlookup.
    cbv beta in Hlookup.
    change (pa_doc (populateLoanOffer s a)) with a in Hlookup.
    rewrite Hlookup.
    cbn [pa_loanOfferId populateLoanOffer].
    destruct (findOne (byId LoanOffer._id (LoanApplication.loanOfferId a)) (loanOffers s));
      [rewrite !orZero_Some|]; split; reflexivity.
  - intros p a Hp Ha Hid Hmine. rewrite map_map. cbn [ep_doc]. rewrite map_id.
    apply filter_In. split; [exact Hp|]. apply existsb_exists.
    exists (LoanApplication._id a). split; [|apply Nat.eqb_eq; symmetry; exact Hid].
    rewrite map_map. cbn [pa_doc populateLoanOffer]. apply in_map.
    apply filter_In. split; [exact Ha | apply byId_true, Hmine].
Qed.

Lemma borrower_view_shows_own_payments_witness :
  exists listed,
    listOwnPayments (Token aliceToken) liveStore = Json 200 listed /\
    Forall
      (fun e =>
         In (ep_doc e) (loanPayments liveStore) /\
         exists a,
           findOne (byId LoanApplication._id (LoanPayment.applicationId (ep_doc e)))
             (loanApplications liveStore) = Some a /\
           LoanApplication.borrowerId a = 1%nat /\
           ep_loanAmount e
           = match findOne (byId LoanOffer._id (LoanApplication.loanOfferId a))
                     (loanOffers liveStore) with
             | Some offer => LoanOffer.amount offer
             | None => 0
             end /\
           ep_interestRate e
           = match findOne (byId LoanOffer._id (LoanApplication.loanOfferId a))
                     (loanOffers liveStore) with
             | Some offer => LoanOffer.interestRate offer
             | None => 0
             end)
      listed /\
    (forall p a,
        In p (loanPayments liveStore) -> In a (loanApplications liveStore) ->
        LoanApplication._id a = LoanPayment.applicationId p ->
        LoanApplication.borrowerId a = 1%nat ->
        In p (map ep_doc listed)).
Proof.
  apply (borrower_view_shows_own_payments sampleExternals aliceToken liveStore
           liveStore_reachable).
  reflexivity.
Defined.

Example borrower_view_of_liveStore :
  listOwnPayments (Token aliceToken) liveStore
  = Json 200
      [mkEnrichedPayment (LoanPayment.mk 6%nat 5%nat 100 [PaymentEntry.mk 7 100]) 5000 12] /\
  listOwnPayments (Token bobToken) liveStore = Json 200 [].
Proof. split; reflexivity. Qed.

(** ** Guards of the read-only routes *)

Lemma authenticateView_refuses {A} c (next : AuthUser -> View A) s :
  isToken c = false -> refusedAs Unauthorized (authenticateView c next s).
Proof. destruct c; [reflexivity | reflexivity | discriminate]. Qed.

Lemma requireRoleView_forbids {A} r user (next : View A) s :
  au_role user <> r -> refusedAs Forbidden (requireRoleView r user next s).
Proof.
  intros Hrole. unfold requireRoleView.
  destruct (String.eqb_spec (au_role user) r) as [Heq|_]; [contradiction|].
  reflexivity.
Qed.

(** X24. The five read-only routes answer 401 to a request without a
    verified token, and 403 to a token whose role is not the one the route
    asks for: lender for the own-offers and applications views, borrower
    for the active-offers and payments views, admin for the all-offers
    view. *)
Theorem read_only_routes_are_guarded (c : Credentials) (s : Store) :
  (isToken c = false ->
   refusedAs Unauthorized (listOwnOffers c s) /\
   refusedAs Unauthorized (listApplicationsForLenderOffers c s) /\
   refusedAs Unauthorized (listActiveOffers c s) /\
   refusedAs Unauthorized (listOwnPayments c s) /\
   refusedAs Unauthorized (listAllOffers c s)) /\
  (forall user,
      c = Token user ->
      (au_role user <> "lender" ->
       refusedAs Forbidden (listOwnOffers c s) /\
       refusedAs Forbidden (listApplicationsForLenderOffers c s)) /\
      (au_role user <> "borrower" ->
       refusedAs Forbidden (listActiveOffers c s) /\
       refusedAs Forbidden (listOwnPayments c s)) /\
      (au_role user <> "admin" -> refusedAs Forbidden (listAllOffers c s))).
Proof.
  split.
  - intros Htoken. repeat split; apply authenticateView_refuses, Htoken.
  - intros user ->. repeat split; apply requireRoleView_forbids; assumption.
Qed.

Lemma read_only_routes_are_guarded_witness :
  (refusedAs Unauthorized (listOwnOffers NoToken liveStore) /\
   refusedAs Unauthorized (listApplicationsForLenderOffers NoToken liveStore) /\
   refusedAs Unauthorized (listActiveOffers NoToken liveStore) /\
   refusedAs Unauthorized (listOwnPayments NoToken liveStore) /\
   refusedAs Unauthorized (listAllOffers NoToken liveStore)) /\
  (refusedAs Forbidden (listOwnOffers (Token aliceToken) liveStore) /\
   refusedAs Forbidden (listApplicationsForLenderOffers (Token aliceToken) liveStore)).
Proof.
  split.
  - apply (proj1 (read_only_routes_are_guarded NoToken liveStore)). reflexivity.
  - apply (proj1 (proj2 (read_only_routes_are_guarded (Token aliceToken) liveStore)
                    aliceToken eq_refl)).
    discriminate.
Defined.

(** X25. A borrower is shown exactly the active offers, in store order;
    with each comes the id and the name of its lender, never the email, or
    [null] when no user has the lender's id. *)
Theorem active_offers_show_the_lender_name_only (borrower : AuthUser) (s : Store) :
  au_role borrower = "borrower" ->
  exists listed,
    listActiveOffers (Token borrower) s = Json 200 listed /\
    map ol_doc listed = filter LoanOffer.isActive (loanOffers s) /\
    Forall (showsLenderNameOnly s) listed.
Proof.
  intros Hrole. eexists. split; [apply (listActiveOffers_borrower borrower s Hrole)|].
  split.
  - rewrite map_map. cbn [ol_doc populateLender]. apply map_id.
  - apply Forall_map. apply Forall_forall. intros o _.
    unfold showsLenderNameOnly. cbn [ol_lenderId ol_doc populateLender].
    destruct (findOne (byId User._id (LoanOffer.lenderId o)) (users s)) as [u|] eqn:Hfind.
    + cbn [option_map selectName UserRef.email UserRef._id UserRef.name].
      split; [reflexivity|]. apply findOne_Some_In in Hfind as [Hin Hid].
      exists u. repeat split; [exact Hin | apply byId_true, Hid].
    + cbn [option_map]. intros u Hu Hid.
      apply (findOne_None_all _ _ u Hfind) in Hu.
      apply byId_true in Hid. congruence.
Qed.

Lemma active_offers_show_the_lender_name_only_witness :
  exists listed,
    listActiveOffers (Token aliceToken) pendingStore = Json 200 listed /\
    map ol_doc listed = filter LoanOffer.isActive (loanOffers pendingStore) /\
    Forall (showsLenderNameOnly pendingStore) listed.
Proof.
  apply (active_offers_show_the_lender_name_only aliceToken pendingStore).
  reflexivity.
Defined.

(** ** Repayments and the state of the application *)

(** X26. A repayment looks at the payment record only, not at the
    application: after the application has been set to 'rejected', a
    repayment of any number, zero and negative amounts included, is still
    answered 200 with the record extended: the amount is added to
    [amountPaid] as a double and one entry is appended. *)
Theorem rejected_application_still_takes_payments
    (lender borrower : AuthUser) (id : ObjectId) (amount : float) (now : Z)
    (s : Store) (a : LoanApplication.t) (p : LoanPayment.t) :
  au_role lender = "lender" ->
  au_role borrower = "borrower" ->
  findOne (byId LoanApplication._id id) (loanApplications s) = Some a ->
  findOne (byId LoanPayment.applicationId id) (loanPayments s) = Some p ->
  let rejected := setApplicationStatus (Token lender) id "rejected" s in
  let paid := recordPayment (Token borrower) id amount now (snd rejected) in
  findOne (byId LoanApplication._id id) (loanApplications (snd rejected))
  = Some (LoanApplication.setStatus "rejected" a) /\
  fst paid
  = mkResponse 200
      (PaymentBody
         (Some (LoanPayment.mk (LoanPayment._id p) id
                  (PrimFloat.add (LoanPayment.amountPaid p) amount)
                  (LoanPayment.payments p ++ [PaymentEntry.mk now amount])))) /\
  findOne (byId LoanPayment.applicationId id) (loanPayments (snd paid))
  = Some (LoanPayment.mk (LoanPayment._id p) id
            (PrimFloat.add (LoanPayment.amountPaid p) amount)
            (LoanPayment.payments p ++ [PaymentEntry.mk now amount])).
Proof.
  intros Hl Hb Happ Hpay rejected paid. unfold paid, rejected.
  rewrite (setApplicationStatus_not_approved lender id "rejected" s a Hl eq_refl Happ).
  cbn [snd]. split.
  - cbn [loanApplications setLoanApplications].
    rewrite findOne_updateOne, Happ; [reflexivity|].
    intros d. apply setStatus_keeps_id.
  - assert (Hid : LoanPayment.applicationId p = id).
    { apply findOne_Some_In in Hpay. apply byId_true, Hpay. }
    rewrite (recordPayment_borrower borrower id amount now _ Hb).
    cbn [fst snd loanPayments setLoanApplications setLoanPayments].
    rewrite Hpay. cbn [option_map]. unfold LoanPayment.incAndPush. rewrite Hid.
    split; [reflexivity|].
    rewrite findOne_updateOne, Hpay; [|intros d Hd; exact Hd].
    cbn [option_map]. rewrite Hid. reflexivity.
Qed.

Lemma rejected_application_still_takes_payments_witness :
  let rejected := setApplicationStatus (Token laraToken) 5%nat "rejected" liveStore in
  let paid := recordPayment (Token bobToken) 5%nat (-40) 9 (snd rejected) in
  findOne (byId LoanApplication._id 5%nat) (loanApplications (snd rejected))
  = Some (LoanApplication.mk 5%nat 1%nat 4%nat "ID-1" 900 "car" "rejected") /\
  fst paid
  = mkResponse 200
      (PaymentBody
         (Some (LoanPayment.mk 6%nat 5%nat 60
                  [PaymentEntry.mk 7 100; PaymentEntry.mk 9 (-40)]))) /\
  findOne (byId LoanPayment.applicationId 5%nat) (loanPayments (snd paid))
  = Some (LoanPayment.mk 6%nat 5%nat 60
            [PaymentEntry.mk 7 100; PaymentEntry.mk 9 (-40)]).
Proof.
  apply (rejected_application_still_takes_payments laraToken bobToken 5%nat (-40) 9
           liveStore
           (LoanApplication.mk 5%nat 1%nat 4%nat "ID-1" 900 "car" "approved")
           (LoanPayment.mk 6%nat 5%nat 100 [PaymentEntry.mk 7 100]));
    reflexivity.
Defined.

(** ** Incomplete bodies *)

(** X27. An offer without one of its three numbers, or an application
    without its offer id or salary or with an absent or empty national id
    or reason, is refused by the schema on save: the answer is 500, not
    400, and nothing is stored. *)
Theorem incomplete_body_is_an_internal_error (caller : AuthUser) (s : Store) :
  (forall input,
      au_role caller = "lender" ->
      oi_amount input = None \/ oi_interestRate input = None
      \/ oi_maxTermMonths input = None ->
      errorKind (fst (createOffer (Token caller) input s)) = Some Internal /\
      snd (createOffer (Token caller) input s) = s) /\
  (forall input,
      au_role caller = "borrower" ->
      ai_loanOfferId input = None \/ ai_monthlySalary input = None
      \/ falsy (ai_nationalId input) = true \/ falsy (ai_reason input) = true ->
      errorKind (fst (createApplication (Token caller) input s)) = Some Internal /\
      snd (createApplication (Token caller) input s) = s).
Proof.
  split.
  - intros input Hrole Hmissing.
    unfold createOffer, authenticate, requireRole. rewrite Hrole.
    change (negb ("lender" =? "lender")%string) with false. cbv iota.
    unfold saveLoanOffer, tryCatch, bind, throw.
    destruct (oi_amount input), (oi_interestRate input), (oi_maxTermMonths input);
      try (split; reflexivity).
    destruct Hmissing as [H|[H|H]]; discriminate H.
  - intros input Hrole Hmissing.
    unfold createApplication, authenticate, requireRole. rewrite Hrole.
    change (negb ("borrower" =? "borrower")%string) with false. cbv iota.
    unfold saveLoanApplication, tryCatch, bind, throw.
    destruct (ai_loanOfferId input), (ai_monthlySalary input);
      try (split; reflexivity);
      try (destruct Hmissing as [H|[H|_]]; discriminate H).
    destruct (falsy (ai_nationalId input) || falsy (ai_reason input)) eqn:Hfalsy;
      [split; reflexivity|].
    apply orb_false_iff in Hfalsy as [Hn Hr].
    destruct Hmissing as [H|[H|[H|H]]]; congruence.
Qed.

Lemma incomplete_body_is_an_internal_error_witness :
  (errorKind
     (fst (createOffer (Token laraToken) (mkOfferInput (Some 100) None (Some 12))
             liveStore)) = Some Internal /\
   snd (createOffer (Token laraToken) (mkOfferInput (Some 100) None (Some 12))
          liveStore) = liveStore) /\
  (errorKind
     (fst (createApplication (Token aliceToken)
             (mkApplicationInput (Some 4%nat) (Some EmptyString) (Some 900) (Some "car"))
             liveStore)) = Some Internal /\
   snd (createApplication (Token aliceToken)
          (mkApplicationInput (Some 4%nat) (Some EmptyString) (Some 900) (Some "car"))
          liveStore) = liveStore).
Proof.
  split.
  - apply (proj1 (incomplete_body_is_an_internal_error laraToken liveStore)
             (mkOfferInput (Some 100) None (Some 12)) eq_refl).
    right. left. reflexivity.
  - apply (proj2 (incomplete_body_is_an_internal_error aliceToken liveStore)
             (mkApplicationInput (Some 4%nat) (Some EmptyString) (Some 900) (Some "car"))
             eq_refl).
    right. right. left. reflexivity.
Defined.
